(** * IQ signal processing engine: a shallow embedding

    The development embeds the numeric core of the radio data collection
    toolkit:

    - [signal_processor]            docs/signal_process/signal_processor.py
    - [radio_basic_toolkit_backup]  radio_basic_toolkit_backup.py (fallbacks)
    - [signal_processor_backup]     docs/signal_process/signal_processor_backup.py
    - [config_handler]              docs/config/config_handler.py
    - [radio_manager]               radio_manager.py

    NumPy scalars are kept behind the interface [NpFloat].  Three carriers
    are provided: IEEE 754 binary32 and binary64 (executable, built on the
    standard library's [spec_float], with NaN, signed zeros and infinities)
    and the real numbers (the exact-arithmetic reading used for statements
    that the specification makes "within tolerance").  Python exceptions are
    an explicit error monad; the files written by [np.savez_compressed] live
    in a finite map from paths to containers.  What the interpreter and the
    file system decide, not the program, is a parameter of the functions
    concerned: the largest array that can be created ([max_size]) and the
    paths that can be opened for writing ([writable]). *)

From Stdlib Require Import ZArith List Bool Reals Lra Lia.
From Stdlib Require Import Floats.SpecFloat.
From stdpp Require Import gmap strings list fin_maps.

(** ** Python exceptions *)

Inductive exn : Type :=
| ValueError
| KeyError
| TypeError
| ZeroDivisionError
| IndexError
| OverflowError
| FileNotFoundError.

Inductive result (A : Type) : Type :=
| Ok (a : A)
| Raise (e : exn).

Arguments Ok {A} a.
Arguments Raise {A} e.

#[global] Instance result_ret : MRet result := fun A a => Ok a.
#[global] Instance result_bind : MBind result :=
  fun A B f m => match m with Ok a => f a | Raise e => Raise e end.

(** [try: m except Exception: return d] *)
Definition try_except {A : Type} (m : result A) (d : A) : A :=
  match m with Ok a => a | Raise _ => d end.

(** [try: return m except Exception: return None] *)
Definition try_or_None {A : Type} (m : result A) : option A :=
  match m with Ok a => Some a | Raise _ => None end.

(** ** Scalars *)

(** The operations NumPy and Python perform on a floating-point scalar.
    Comparisons are the IEEE ones: every comparison with a NaN is false. *)
Class NpFloat (F : Type) : Type := {
  f_of_Z : Z -> F;              (* conversion of a Python int *)
  f_add : F -> F -> F;
  f_sub : F -> F -> F;
  f_mul : F -> F -> F;
  f_div : F -> F -> F;          (* NumPy division: never raises *)
  f_sqrt : F -> F;
  f_eqb : F -> F -> bool;       (* == *)
  f_ltb : F -> F -> bool;       (* <  *)
  f_leb : F -> F -> bool;       (* <= *)
  f_to_Z : F -> option Z        (* int(x): truncation toward zero; None
                                   where Python raises (nan, inf) *)
}.

(** *** IEEE 754 carriers *)

Definition SFtrunc (x : spec_float) : option Z :=
  match x with
  | S754_zero _ => Some 0%Z
  | S754_finite s m e =>
      Some (cond_Zopp s
              (match e with
               | Zneg p => Z.shiftr (Zpos m) (Zpos p)
               | _ => Z.shiftl (Zpos m) e
               end))
  | S754_infinity _ => None
  | S754_nan => None
  end.

Definition ieee (prec emax : Z) : NpFloat spec_float := {|
  f_of_Z := fun z => binary_normalize prec emax z 0 false;
  f_add := SFadd prec emax;
  f_sub := SFsub prec emax;
  f_mul := SFmul prec emax;
  f_div := SFdiv prec emax;
  f_sqrt := SFsqrt prec emax;
  f_eqb := SFeqb;
  f_ltb := SFltb;
  f_leb := SFleb;
  f_to_Z := SFtrunc
|}.

(** [np.float32], the dtype of the IQ tables. *)
Definition binary32 : NpFloat spec_float := ieee 24 128.

(** [np.float64] / Python [float]; a [complex128] is a pair of these. *)
Definition binary64 : NpFloat spec_float := ieee 53 1024.

(** *** Exact arithmetic *)

Definition Rtrunc (x : R) : Z :=
  if Rle_dec 0 x then Int_part x else (- Int_part (- x))%Z.

Definition real_arith : NpFloat R := {|
  f_of_Z := IZR;
  f_add := Rplus;
  f_sub := Rminus;
  f_mul := Rmult;
  f_div := Rdiv;
  f_sqrt := sqrt;
  f_eqb := fun x y => if Req_dec_T x y then true else false;
  f_ltb := fun x y => if Rlt_dec x y then true else false;
  f_leb := fun x y => if Rle_dec x y then true else false;
  f_to_Z := fun x => Some (Rtrunc x)
|}.

(** ** NumPy primitives *)

Section numpy.
Context {F : Type} {ops : NpFloat F}.

Definition f_zero : F := f_of_Z 0.
Definition f_one : F := f_of_Z 1.
Definition f_of_nat (n : nat) : F := f_of_Z (Z.of_nat n).

(** Python's [x / y] on two Python floats raises on a zero divisor. *)
Definition py_div (x y : F) : result F :=
  if f_eqb y f_zero then Raise ZeroDivisionError else Ok (f_div x y).

(** [np.sum]: the additions are performed left to right from 0.  From 8
    elements on NumPy adds in another order (unrolled and pairwise), which
    changes the rounding of the sum and nothing else; nothing below relies
    on the rounding of a sum. *)
Definition np_sum (xs : list F) : F := fold_left f_add xs f_zero.

(** [np.mean]: on an empty array this is 0/0, a NaN with a warning. *)
Definition np_mean (xs : list F) : F :=
  f_div (np_sum xs) (f_of_nat (length xs)).

(** [np.var], [ddof = 0]. *)
Definition np_var (xs : list F) : F :=
  let arrmean := np_mean xs in
  np_mean (map (fun x => let d := f_sub x arrmean in f_mul d d) xs).

Definition np_std (xs : list F) : F := f_sqrt (np_var xs).

(** [np.maximum] and [np.minimum] propagate a NaN. *)
Definition np_maximum (a b : F) : F :=
  if f_leb b a || negb (f_eqb a a) then a else b.

Definition np_minimum (a b : F) : F :=
  if f_leb a b || negb (f_eqb a a) then a else b.

(** [np.max], [np.min]: a zero-size array has no identity for the
    reduction, which raises ValueError. *)
Definition np_max (xs : list F) : result F :=
  match xs with
  | [] => Raise ValueError
  | x :: t => Ok (fold_left np_maximum t x)
  end.

Definition np_min (xs : list F) : result F :=
  match xs with
  | [] => Raise ValueError
  | x :: t => Ok (fold_left np_minimum t x)
  end.

(** [np.where(xs > threshold, 0, xs)] *)
Definition np_where_gt (threshold : F) (xs : list F) : list F :=
  map (fun x => if f_ltb threshold x then f_zero else x) xs.

(** [np.argmax]: the first index holding the maximum; a NaN counts as
    maximal and stops the scan. *)
Fixpoint argmax_from (mp : F) (mi i : nat) (xs : list F) : nat :=
  match xs with
  | [] => mi
  | x :: t =>
      if negb (f_eqb mp mp) then mi
      else if negb (f_leb x mp) then argmax_from x i (S i) t
           else argmax_from mp mi (S i) t
  end.

Definition np_argmax (xs : list F) : result nat :=
  match xs with
  | [] => Raise ValueError
  | x :: t => Ok (argmax_from x 0 1 t)
  end.

(** *** Complex samples *)

Definition complex : Type := F * F.

Definition c_zero : complex := (f_zero, f_zero).

Definition c_add (z w : complex) : complex :=
  (f_add (fst z) (fst w), f_add (snd z) (snd w)).

Definition c_sub (z w : complex) : complex :=
  (f_sub (fst z) (fst w), f_sub (snd z) (snd w)).

Definition c_mul (z w : complex) : complex :=
  (f_sub (f_mul (fst z) (fst w)) (f_mul (snd z) (snd w)),
   f_add (f_mul (fst z) (snd w)) (f_mul (snd z) (fst w))).

(** [z / m] and [z * k] with a real scalar act on both components; on a
    zero divisor NumPy's complex loop likewise returns re/0 and im/0.  On
    other divisors NumPy's quotient may differ from this one in the last
    bit. *)
Definition c_div_real (z : complex) (m : F) : complex :=
  (f_div (fst z) m, f_div (snd z) m).

Definition c_scale (k : F) (z : complex) : complex :=
  (f_mul (fst z) k, f_mul (snd z) k).

(** [np.abs] of a complex sample.  NumPy evaluates it as [hypot(re, im)],
    which keeps a result in range where the squares overflow or underflow;
    in range the two differ by rounding only, and over exact arithmetic not
    at all. *)
Definition c_abs (z : complex) : F :=
  f_sqrt (f_add (f_mul (fst z) (fst z)) (f_mul (snd z) (snd z))).

Definition c_sum (zs : list complex) : complex := fold_left c_add zs c_zero.

Definition c_mean (zs : list complex) : complex :=
  c_div_real (c_sum zs) (f_of_nat (length zs)).

(** [np.var] of a complex array: the mean of [|z - mean|^2], the square
    being taken as [x * conj(x)]. *)
Definition c_var (zs : list complex) : F :=
  let arrmean := c_mean zs in
  np_mean (map (fun z => let d := c_sub z arrmean in
                         f_add (f_mul (fst d) (fst d)) (f_mul (snd d) (snd d)))
               zs).

(** *** [np.convolve(a, v, mode='same')] for a complex signal and a real
    kernel.  Entry [k] of the full convolution sums [a[k-j] * v[j]] over the
    kernel positions [j] that overlap the signal; 'same' keeps
    [max(len a, len v)] entries starting at [(min(len a, len v) - 1) // 2]. *)
Definition conv_full_at (a : list complex) (v : list F) (k : nat) : complex :=
  c_sum (omap (fun j =>
                 if (j <=? k)%nat
                 then match a !! (k - j)%nat, v !! j with
                      | Some z, Some c => Some (c_scale c z)
                      | _, _ => None
                      end
                 else None)
              (seq 0 (length v))).

Definition np_convolve_same (a : list complex) (v : list F)
  : result (list complex) :=
  match a, v with
  | [], _ => Raise ValueError
  | _, [] => Raise ValueError
  | _, _ =>
      let off := ((Nat.min (length a) (length v) - 1) / 2)%nat in
      Ok (map (fun i => conv_full_at a v (i + off))
              (seq 0 (Nat.max (length a) (length v))))
  end.

(** *** [np.random.normal(loc, scale, size)]
    The generator is an arbitrary stream of draws (already scaled); a call
    consumes [size] of them.  A negative size raises ValueError.  So does a
    size above [max_size], the largest number of elements the interpreter
    can give to one array: NumPy refuses a larger dimension with a
    ValueError and the allocator a buffer it cannot serve with a
    MemoryError, which no caller tells apart. *)
Definition rng : Type := nat -> F.

Definition np_random_normal (max_size : Z) (g : rng) (size : Z)
  : result (list F * rng) :=
  if (size <? 0)%Z || (max_size <? size)%Z then Raise ValueError
  else let n := Z.to_nat size in
       Ok (map g (seq 0 n), fun i => g (n + i)%nat).

(** *** [np.fft.fftfreq(n, d)] *)
Definition fftfreq_index (n k : Z) : Z :=
  let N := ((n - 1) / 2 + 1)%Z in
  if (k <? N)%Z then k else (- (n / 2) + (k - N))%Z.

Definition np_fftfreq (n : nat) (d : F) : result (list F) :=
  val ← py_div f_one (f_mul (f_of_nat n) d);
  Ok (map (fun k => f_mul (f_of_Z (fftfreq_index (Z.of_nat n) (Z.of_nat k))) val)
          (seq 0 n)).

End numpy.

Arguments complex F : clear implicits.
Arguments rng F : clear implicits.

(** ** Python values read from JSON, and text files *)

(** A JSON document as [json.load] returns it: None, bool, int, float,
    str, list or dict. *)
#[warnings="-register-all"]
Inductive json (F : Type) : Type :=
| JNull
| JBool (b : bool)
| JInt (n : Z)
| JFloat (x : F)
| JStr (s : string)
| JArr (items : list (json F))
| JObj (members : gmap string (json F)).

Arguments JNull {F}.
Arguments JBool {F} b.
Arguments JInt {F} n.
Arguments JFloat {F} x.
Arguments JStr {F} s.
Arguments JArr {F} items.
Arguments JObj {F} members.

(** A text file either parses to a document or is not JSON at all.
    [json.dump] writes a text that parses back to the value it was given. *)
Inductive text_file (F : Type) : Type :=
| JsonText (doc : json F)
| InvalidJson.

Arguments JsonText {F} doc.
Arguments InvalidJson {F}.

Section python.
Context {F : Type} {ops : NpFloat F}.

(** [s.endswith(suffix)] *)
Definition str_endswith (s suffix : string) : bool :=
  (String.length suffix <=? String.length s)%nat &&
  String.eqb
    (String.substring (String.length s - String.length suffix)
                      (String.length suffix) s)
    suffix.

(** [key in s] for two strings: the substring test. *)
Definition str_contains (key s : string) : bool :=
  match String.index 0 key s with Some _ => true | None => false end.

(** [key in x]: membership in a dict looks at the keys, in a list it
    compares the elements with the key, in a str it searches a substring;
    the other values are not iterable. *)
Definition py_in (key : string) (x : json F) : result bool :=
  match x with
  | JObj members =>
      Ok (match members !! key with Some _ => true | None => false end)
  | JArr items =>
      Ok (existsb (fun v => match v with
                            | JStr s => String.eqb s key
                            | _ => false
                            end) items)
  | JStr s => Ok (str_contains key s)
  | _ => Raise TypeError
  end.

(** [x[key]] with a str key: only a dict can be indexed that way. *)
Definition py_getitem (x : json F) (key : string) : result (json F) :=
  match x with
  | JObj members =>
      match members !! key with
      | Some v => Ok v
      | None => Raise KeyError
      end
  | _ => Raise TypeError
  end.

(** [x[key] = value] *)
Definition py_setitem (x : json F) (key : string) (value : json F)
  : result (json F) :=
  match x with
  | JObj members => Ok (JObj (<[key := value]> members))
  | _ => Raise TypeError
  end.

(** Truth value of an object, as [or] and [if] test it. *)
Definition py_truthy (x : json F) : bool :=
  match x with
  | JNull => false
  | JBool b => b
  | JInt n => negb (n =? 0)%Z
  | JFloat v => negb (f_eqb v f_zero)
  | JStr s => negb (String.eqb s "")
  | JArr items => match items with [] => false | _ => true end
  | JObj members => negb (bool_decide (members = ∅))
  end.

(** [isinstance(x, (int, float))]; a bool is an int. *)
Definition is_int_or_float (x : json F) : bool :=
  match x with
  | JBool _ | JInt _ | JFloat _ => true
  | _ => false
  end.

(** [x <= 0] for a number; a bool compares as 0 or 1. *)
Definition number_le_zero (x : json F) : bool :=
  match x with
  | JBool b => negb b
  | JInt n => (n <=? 0)%Z
  | JFloat v => f_leb v f_zero
  | _ => false
  end.

(** [int(x)] on a float, for code without a handler around it.  A NaN
    raises ValueError; the OverflowError of an infinity is not told apart
    from it. *)
Definition py_int_of_float (x : F) : result Z :=
  match f_to_Z x with
  | Some n => Ok n
  | None => Raise ValueError
  end.

(** [os.path.exists], [open(path, 'r')], [json.load] and
    [open(path, 'w')] followed by [json.dump].  The empty path names no
    file.  A JSONDecodeError is a ValueError, and the only one these
    functions meet.  [writable path] tells whether [open(path, 'w')]
    succeeds: the parent directory exists and the file may be created or
    replaced there; otherwise it raises an OSError (FileNotFoundError,
    PermissionError, ...) and nothing is written. *)
Definition path_exists (fs : gmap string (text_file F)) (path : string) : bool :=
  negb (String.eqb path "") &&
  match fs !! path with Some _ => true | None => false end.

Definition read_json (fs : gmap string (text_file F)) (path : string)
  : result (json F) :=
  if String.eqb path "" then Raise FileNotFoundError
  else match fs !! path with
       | None => Raise FileNotFoundError
       | Some InvalidJson => Raise ValueError
       | Some (JsonText doc) => Ok doc
       end.

Definition opens_for_writing (writable : string -> bool) (path : string)
  : bool :=
  negb (String.eqb path "") && writable path.

Definition write_json (writable : string -> bool)
  (fs : gmap string (text_file F)) (path : string)
  (doc : json F) : result (gmap string (text_file F)) :=
  if opens_for_writing writable path then Ok (<[path := JsonText doc]> fs)
  else Raise FileNotFoundError.

(** [for key in keys: if key not in config: ...]: the first key that is
    missing, if any. *)
Fixpoint first_missing (keys : list string) (config : json F)
  : result (option string) :=
  match keys with
  | [] => Ok None
  | key :: rest =>
      py_in key config ≫= fun present : bool =>
      if present then first_missing rest config else Ok (Some key)
  end.

(** The keys every configuration must carry. *)
Definition required_keys : list string :=
  ["center_freq"; "sample_rate"; "gain"; "device_id"]%string.

End python.

(** ** docs/signal_process/signal_processor.py *)

Module signal_processor.
Section defs.
Context {F : Type} {ops : NpFloat F}.

(** An IQ table: one (I, Q) pair per row, so the shape is (n, 2) by
    construction and the dimension test of [process_iq_data] cannot fail. *)
Definition iq_table : Type := list (F * F).

Definition create_iq_array (iq_data_list : option (list (F * F)))
  (sample_rate : option F) : iq_table :=
  let iq_array :=
    match iq_data_list with
    | None => repeat (f_zero, f_zero) 1000
    | Some rows => rows
    end in
  match sample_rate with
  | Some sr => iq_array ++ [(sr, f_zero)]
  | None => iq_array
  end.

(** The test guarding the annotation branch:
    [iq_array.shape[0] > 1 and np.all(iq_array[-1, :] == [iq_array[-1, 0], 0])]. *)
Definition last_row_is_annotation (iq_array : iq_table) : bool :=
  (1 <? length iq_array)%nat &&
  match last iq_array with
  | Some (i, q) => f_eqb i i && f_eqb q f_zero
  | None => false
  end.

(** The rows the statistics run over: [iq_array[:-1]] or [iq_array]. *)
Definition data_rows (iq_array : iq_table) : iq_table :=
  if last_row_is_annotation iq_array then removelast iq_array else iq_array.

Record stats_t : Type := {
  stats_i_mean : F;
  stats_i_std : F;
  stats_q_mean : F;
  stats_q_std : F;
  stats_i_max : F;
  stats_i_min : F
}.

Record iq_result : Type := {
  original_i : list F;
  filtered_i : list F;
  q_components : list F;
  i_mean : F;
  stats : stats_t;
  first_200_samples : iq_table
}.

Definition process_iq_data (iq_array : iq_table) : result iq_result :=
  let first_200 := take 200 iq_array in
  let rows := data_rows iq_array in
  let q_components := map snd rows in
  let i_components := map fst rows in
  let i_mean := np_mean i_components in
  let filtered_i := np_where_gt i_mean i_components in
  let i_std := np_std i_components in
  let q_mean := np_mean q_components in
  let q_std := np_std q_components in
  i_max ← np_max i_components;
  i_min ← np_min i_components;
  Ok {| original_i := i_components;
        filtered_i := filtered_i;
        q_components := q_components;
        i_mean := i_mean;
        stats := {| stats_i_mean := i_mean;
                    stats_i_std := i_std;
                    stats_q_mean := q_mean;
                    stats_q_std := q_std;
                    stats_i_max := i_max;
                    stats_i_min := i_min |};
        first_200_samples := first_200 |}.

(** *** [save_signal_data] and [load_signal_data]: [np.save], [np.load] *)

(** What a path holds: an array written by [np.save], or anything else
    (an archive, a text), from which [np.load] returns no array. *)
Inductive file : Type :=
| NpyFile (a : iq_table)
| OtherFile.

(** [np.save] appends the extension when it is missing. *)
Definition npy_name (filename : string) : string :=
  if str_endswith filename ".npy" then filename
  else (filename ++ ".npy")%string.

(** [np.save] opens the extended name for writing; [writable] tells
    whether that succeeds.  When it does not, the handler returns False
    and no file is written. *)
Definition save_signal_data (writable : string -> bool)
  (fs : gmap string file) (iq_array : iq_table)
  (filename : string) : bool * gmap string file :=
  if writable (npy_name filename)
  then (true, <[npy_name filename := NpyFile iq_array]> fs)
  else (false, fs).

Definition load_signal_data (fs : gmap string file) (filename : string)
  : option iq_table :=
  try_or_None
    (match fs !! filename with
     | None => Raise FileNotFoundError
     | Some (NpyFile data) => Ok data
     | Some OtherFile => Raise ValueError
     end).

End defs.
End signal_processor.

(** ** radio_basic_toolkit_backup.py: the fallback implementations *)

Module radio_basic_toolkit_backup.
Section defs.
Context {F : Type} {ops : NpFloat F}.

Definition create_iq_array (iq_data_list : option (list (F * F)))
  (sample_rate : option F) : list (F * F) :=
  let iq_array :=
    match iq_data_list with
    | None => repeat (f_zero, f_zero) 1000
    | Some rows => rows
    end in
  match sample_rate with
  | Some sr => iq_array ++ [(sr, f_zero)]
  | None => iq_array
  end.

Record iq_result : Type := {
  original_i : list F;
  filtered_i : list F;
  q_components : list F;
  i_mean : F
}.

Definition process_iq_data (iq_array : list (F * F)) : iq_result :=
  let q_components :=
    if (1 <? length iq_array)%nat then map snd (removelast iq_array)
    else map snd iq_array in
  let i_components :=
    if (1 <? length iq_array)%nat then map fst (removelast iq_array)
    else map fst iq_array in
  let i_mean := np_mean i_components in
  let filtered_i := np_where_gt i_mean i_components in
  {| original_i := i_components;
     filtered_i := filtered_i;
     q_components := q_components;
     i_mean := i_mean |}.

(** *** The fallback [save_config] and [load_config] *)

Definition save_config (writable : string -> bool)
  (fs : gmap string (text_file F)) (file_path : string)
  (config_dict : json F) : bool * gmap string (text_file F) :=
  match write_json writable fs file_path config_dict with
  | Ok fs' => (true, fs')
  | Raise _ => (false, fs)
  end.

Definition load_config (fs : gmap string (text_file F)) (file_path : string)
  : option (json F) :=
  try_or_None (
    config ← read_json fs file_path;
    missing ← first_missing required_keys config;
    match missing with
    | Some _ => Raise KeyError
    | None => Ok config
    end).

(** *** [simulate_signal_collect]
    [np.random.randn(100)] takes 100 draws from the generator; each pass of
    the loop draws the I samples, then the Q samples. *)
Definition collect_block (g : rng F) : list (F * F) * rng F :=
  let i_samples := map g (seq 0 100) in
  let q_samples := map g (seq 100 100) in
  (zip i_samples q_samples, fun k => g (200 + k)%nat).

Fixpoint collect_blocks (passes : nat) (g : rng F) : list (F * F) :=
  match passes with
  | O => []
  | S n => let '(block, g') := collect_block g in block ++ collect_blocks n g'
  end.

(** [range(total_samples // 100)] is empty for a negative bound.  There
    is no handler: a failing [int()] propagates. *)
Definition simulate_signal_collect (g : rng F) (duration sample_rate : F)
  : result (list (F * F)) :=
  total_samples ← py_int_of_float (f_mul duration sample_rate);
  Ok (collect_blocks (Z.to_nat (total_samples / 100)) g).

End defs.
End radio_basic_toolkit_backup.

(** ** docs/signal_process/signal_processor_backup.py *)

Module signal_processor_backup.
Section defs.
Context {F : Type} {ops : NpFloat F}.

(** *** Python values and arrays *)

(** The values a configuration entry or a metadata entry holds. *)
Inductive scalar : Type :=
| SStr (s : string)
| SNum (x : F).

(** What [ndarray.item()] can hand back. *)
Inductive pyobj : Type :=
| PyDict (d : gmap string scalar)
| PyFloat (x : F)
| PyComplex (z : complex F).

(** The arrays this module writes to, or reads from, a container: the
    one-dimensional complex sample buffer and the zero-dimensional arrays
    NumPy wraps around a float, a complex number or an arbitrary object.
    Arrays of two or more dimensions, which this module never creates, are
    not represented; what is proved of [analyze_signal] is proved of
    one-dimensional buffers. *)
Inductive ndarray : Type :=
| NdComplex1 (xs : list (complex F))
| NdFloat0 (x : F)
| NdComplex0 (z : complex F)
| NdObject0 (d : gmap string scalar).

Definition np_asanyarray (o : pyobj) : ndarray :=
  match o with
  | PyDict d => NdObject0 d
  | PyFloat x => NdFloat0 x
  | PyComplex z => NdComplex0 z
  end.

(** [a.item()]: only an array of size 1 converts to a Python scalar. *)
Definition ndarray_item (a : ndarray) : result pyobj :=
  match a with
  | NdComplex1 [z] => Ok (PyComplex z)
  | NdComplex1 _ => Raise ValueError
  | NdFloat0 x => Ok (PyFloat x)
  | NdComplex0 z => Ok (PyComplex z)
  | NdObject0 d => Ok (PyDict d)
  end.

(** [float(a)]: complex and object arrays do not convert. *)
Definition py_float (a : ndarray) : result F :=
  match a with
  | NdFloat0 x => Ok x
  | _ => Raise TypeError
  end.

(** [int(x)] on a float: ValueError on a NaN, OverflowError on an
    infinity; no handler of this module tells the two apart. *)
Definition py_int (x : F) : result Z :=
  match f_to_Z x with
  | Some n => Ok n
  | None => Raise ValueError
  end.

(** [xs[i]] *)
Definition getitem (xs : list F) (i : nat) : result F :=
  match xs !! i with
  | Some x => Ok x
  | None => Raise IndexError
  end.

(** *** The data class and the configuration snapshot *)

Record SignalData : Type := {
  data : ndarray;
  sample_rate : F;
  center_freq : F;
  timestamp : F;
  metadata : pyobj
}.

(** The entries of [self.config] the processor reads.  Every configuration
    handed out by the configuration handler carries these four keys. *)
Record radio_config : Type := {
  config_center_freq : F;
  config_sample_rate : F;
  config_gain : scalar;
  config_device_id : scalar
}.

(** *** Acquisition and preprocessing *)

(** [real_part + 1j * imag_part] pairs the two draws sample by sample.
    [max_size] is the largest sample count for which the arrays of one
    acquisition can be created. *)
Definition _simulate_signal_acquisition (max_size : Z) (config : radio_config)
  (g : rng F) (duration : F) : option (list (complex F)) :=
  try_or_None (
    let sample_rate := config_sample_rate config in
    num_samples ← py_int (f_mul sample_rate duration);
    '(real_part, g1) ← np_random_normal max_size g num_samples;
    '(imag_part, _) ← np_random_normal max_size g1 num_samples;
    Ok (zip real_part imag_part)).

(** The division that normalises the buffer. *)
Definition signal_normalized (signal : list (complex F)) (peak : F)
  : list (complex F) :=
  map (fun z => c_div_real z peak) signal.

(** The moving-average step applied to the normalised buffer. *)
Definition moving_average_filter (signal_normalized : list (complex F))
  : result (list (complex F)) :=
  let window_size := Z.min 100 (Z.of_nat (length signal_normalized) / 10) in
  if (1 <? window_size)%Z then
    let kernel := repeat (f_div f_one (f_of_Z window_size))
                         (Z.to_nat window_size) in
    np_convolve_same signal_normalized kernel
  else Ok signal_normalized.

(** The body of the [try] block of [_preprocess_signal]. *)
Definition _preprocess_signal_try (signal : list (complex F))
  : result (list (complex F)) :=
  peak ← np_max (map c_abs signal);
  moving_average_filter (signal_normalized signal peak).

Definition _preprocess_signal (signal : list (complex F)) : list (complex F) :=
  try_except (_preprocess_signal_try signal) signal.

(** [now] is the value [time.time()] returns.  With the four configuration
    keys present nothing between acquisition and [return signal_obj] can
    raise, so the outer handler has no further case. *)
Definition process_signal (max_size : Z) (config : radio_config) (g : rng F)
  (now : F) (duration : F) : option SignalData :=
  match _simulate_signal_acquisition max_size config g duration with
  | None => None
  | Some signal_data =>
      let processed_data := _preprocess_signal signal_data in
      Some {| data := NdComplex1 processed_data;
              sample_rate := config_sample_rate config;
              center_freq := config_center_freq config;
              timestamp := now;
              metadata := PyDict (list_to_map
                [("device_id"%string, config_device_id config);
                 ("gain"%string, config_gain config);
                 ("duration"%string, SNum duration);
                 ("data_type"%string, SStr "complex64")]) |}
  end.

(** *** Analysis *)

Section analysis.
(** [np.fft.fft] and [np.log10] are library functions of NumPy. *)
Variable np_fft : list (complex F) -> result (list (complex F)).
Variable np_log10 : F -> F.

Record analysis_result : Type := {
  power : F;
  amplitude : F;
  main_frequency : F;
  snr_estimate : F;
  spectrum_peak : F;
  data_length : nat
}.

Definition analyze_signal_try (data : list (complex F)) (sample_rate : F)
  : result analysis_result :=
  let power := np_mean (map (fun z => let a := c_abs z in f_mul a a) data) in
  let amplitude := np_mean (map c_abs data) in
  fft_data ← np_fft data;
  let spectrum := map c_abs fft_data in
  d ← py_div f_one sample_rate;
  freqs ← np_fftfreq (length data) d;
  main_freq_idx ← np_argmax spectrum;
  main_freq ← getitem freqs main_freq_idx;
  let snr :=
    f_mul (f_of_Z 10)
      (np_log10 (f_div power
                   (f_add (c_var data) (f_div f_one (f_of_Z (10 ^ 10)))))) in
  peak ← np_max spectrum;
  Ok {| power := power;
        amplitude := amplitude;
        main_frequency := main_freq;
        snr_estimate := snr;
        spectrum_peak := peak;
        data_length := length data |}.

(** The empty dict returned on failure is [None].  Only the sample buffer
    is a one-dimensional array; on the other array kinds the transform (or
    the absolute value) raises. *)
Definition analyze_signal (signal_data : SignalData)
  : option analysis_result :=
  match data signal_data with
  | NdComplex1 xs =>
      try_or_None (analyze_signal_try xs (sample_rate signal_data))
  | _ => None
  end.

End analysis.

(** *** Persistence *)

Inductive file : Type :=
| NpzFile (members : gmap string ndarray)
| OtherFile.

Definition endswith (s suffix : string) : bool :=
  (String.length suffix <=? String.length s)%nat &&
  String.eqb
    (String.substring (String.length s - String.length suffix)
               (String.length suffix) s)
    suffix.

(** [np.savez_compressed] appends the extension when it is missing. *)
Definition npz_name (file_path : string) : string :=
  if endswith file_path ".npz" then file_path else (file_path ++ ".npz")%string.

Definition np_savez_compressed (fs : gmap string file) (file_path : string)
  (kwds : list (string * ndarray)) : gmap string file :=
  <[npz_name file_path := NpzFile (list_to_map kwds)]> fs.

(** [np.load(file)] opens exactly the path it is given; [allow_pickle] is
    kept by the returned archive. *)
Definition np_load (fs : gmap string file) (file_path : string)
  : result (gmap string ndarray) :=
  match fs !! file_path with
  | None => Raise FileNotFoundError
  | Some (NpzFile members) => Ok members
  | Some OtherFile => Raise ValueError
  end.

(** [archive[key]]: an object array is pickled data and is refused unless
    the archive was opened with [allow_pickle=True]. *)
Definition npz_getitem (allow_pickle : bool) (members : gmap string ndarray)
  (key : string) : result ndarray :=
  match members !! key with
  | None => Raise KeyError
  | Some (NdObject0 d) =>
      if allow_pickle then Ok (NdObject0 d) else Raise ValueError
  | Some a => Ok a
  end.

(** [key in archive] *)
Definition npz_contains (members : gmap string ndarray) (key : string) : bool :=
  match members !! key with Some _ => true | None => false end.

(** The default of [np.load]'s [allow_pickle] parameter (False since
    NumPy 1.16.3); [load_signal_data] does not pass the parameter. *)
Definition allow_pickle_default : bool := false.

(** Directories are not modelled, so creating the parents cannot fail and
    the call reports success. *)
Definition save_signal_data (fs : gmap string file) (signal_data : SignalData)
  (file_path : string) : bool * gmap string file :=
  (true,
   np_savez_compressed fs file_path
     [("data"%string, data signal_data);
      ("sample_rate"%string, NdFloat0 (sample_rate signal_data));
      ("center_freq"%string, NdFloat0 (center_freq signal_data));
      ("timestamp"%string, NdFloat0 (timestamp signal_data));
      ("metadata"%string, np_asanyarray (metadata signal_data))]).

Definition load_signal_data_try (fs : gmap string file) (file_path : string)
  : result SignalData :=
  archive ← np_load fs file_path;
  d ← npz_getitem allow_pickle_default archive "data";
  sr ← npz_getitem allow_pickle_default archive "sample_rate" ≫= py_float;
  cf ← npz_getitem allow_pickle_default archive "center_freq" ≫= py_float;
  ts ← npz_getitem allow_pickle_default archive "timestamp" ≫= py_float;
  md ← (if npz_contains archive "metadata"
        then npz_getitem allow_pickle_default archive "metadata" ≫= ndarray_item
        else Ok (PyDict ∅));
  Ok {| data := d;
        sample_rate := sr;
        center_freq := cf;
        timestamp := ts;
        metadata := md |}.

Definition load_signal_data (fs : gmap string file) (file_path : string)
  : option SignalData :=
  try_or_None (load_signal_data_try fs file_path).

End defs.
End signal_processor_backup.

(** ** docs/config/config_handler.py *)

Module config_handler.
Section defs.
Context {F : Type} {ops : NpFloat F}.

Definition DEFAULT_RADIO_CONFIG : json F :=
  JObj (list_to_map
    [("center_freq"%string, JFloat (f_of_Z 98700000));
     ("sample_rate"%string, JFloat (f_of_Z 2400000));
     ("gain"%string, JStr "auto");
     ("device_id"%string, JStr "rtl-sdr-01");
     ("bandwidth"%string, JFloat (f_of_Z 2400000));
     ("antenna"%string, JStr "auto");
     ("output_format"%string, JStr "complex64")]).

(** The attributes of a [ConfigHandler]. *)
Record ConfigHandler : Type := {
  config_file : string;
  config : json F
}.

(** [ConfigHandler(config_file)] *)
Definition init (config_file : string) : ConfigHandler :=
  {| config_file := config_file; config := DEFAULT_RADIO_CONFIG |}.

(** [not isinstance(v, (int, float)) or v <= 0] *)
Definition not_positive_number (v : json F) : bool :=
  negb (is_int_or_float v) || number_le_zero v.

Definition _validate_config (config : json F) : result bool :=
  missing ← first_missing required_keys config;
  match missing with
  | Some _ => Ok false
  | None =>
      center_freq ← py_getitem config "center_freq";
      if not_positive_number center_freq then Ok false
      else
        sample_rate ← py_getitem config "sample_rate";
        if not_positive_number sample_rate then Ok false
        else Ok true
  end.

(** [a or b] on an optional argument. *)
Definition or_default_path (file_path : option string) (default : string)
  : string :=
  match file_path with
  | Some path => if String.eqb path "" then default else path
  | None => default
  end.

Definition or_default_config (config_dict : option (json F)) (default : json F)
  : json F :=
  match config_dict with
  | Some c => if py_truthy c then c else default
  | None => default
  end.

Definition save_config_try (self : ConfigHandler)
  (config_dict : option (json F)) (file_path : option string)
  (writable : string -> bool) (fs : gmap string (text_file F))
  : result (bool * gmap string (text_file F)) :=
  let target_file := or_default_path file_path (config_file self) in
  let config_to_save := or_default_config config_dict (config self) in
  valid ← _validate_config config_to_save;
  if negb valid then Ok (false, fs)
  else
    fs' ← write_json writable fs target_file config_to_save;
    Ok (true, fs').

Definition save_config (self : ConfigHandler)
  (config_dict : option (json F)) (file_path : option string)
  (writable : string -> bool) (fs : gmap string (text_file F))
  : bool * gmap string (text_file F) :=
  try_except (save_config_try self config_dict file_path writable fs)
    (false, fs).

(** [load_config] returns a configuration and, on success, stores it in
    [self.config]. *)
Definition load_config_try (self : ConfigHandler) (file_path : option string)
  (fs : gmap string (text_file F)) : result (json F * ConfigHandler) :=
  let target_file := or_default_path file_path (config_file self) in
  if negb (path_exists fs target_file) then Ok (DEFAULT_RADIO_CONFIG, self)
  else
    config ← read_json fs target_file;
    valid ← _validate_config config;
    if negb valid then Ok (DEFAULT_RADIO_CONFIG, self)
    else Ok (config, {| config_file := config_file self; config := config |}).

Definition load_config (self : ConfigHandler) (file_path : option string)
  (fs : gmap string (text_file F)) : json F * ConfigHandler :=
  try_except (load_config_try self file_path fs) (DEFAULT_RADIO_CONFIG, self).

(** [update_config]: the keyword arguments come in call order. *)
Fixpoint update_config_loop (kwargs : list (string * json F)) (config : json F)
  : result (json F) :=
  match kwargs with
  | [] => Ok config
  | (key, value) :: rest =>
      py_in key config ≫= fun known : bool =>
      if known
      then config' ← py_setitem config key value; update_config_loop rest config'
      else update_config_loop rest config
  end.

(** Only a dict can be changed in place, and on a dict nothing raises: when
    the loop raises, [self.config] is as it was. *)
Definition update_config (self : ConfigHandler) (kwargs : list (string * json F))
  : bool * ConfigHandler :=
  match update_config_loop kwargs (config self) with
  | Ok config' =>
      (true, {| config_file := config_file self; config := config' |})
  | Raise _ => (false, self)
  end.

Definition get_config (self : ConfigHandler) : json F := config self.

End defs.
End config_handler.

(** ** radio_manager.py *)

Module radio_manager.
Section defs.
Context {F : Type} {ops : NpFloat F}.

Definition device_config : json F :=
  JObj (list_to_map
    [("center_freq"%string, JFloat (f_of_Z 98700000));
     ("sample_rate"%string, JFloat (f_of_Z 2400000));
     ("gain"%string, JStr "auto");
     ("device_id"%string, JStr "rtl-sdr-01")]).

(** Only an IOError is handled, which a failing [open] raises; the
    function returns nothing. *)
Definition save_config (writable : string -> bool)
  (fs : gmap string (text_file F)) (file_path : string)
  (config_dict : json F) : gmap string (text_file F) :=
  match write_json writable fs file_path config_dict with
  | Ok fs' => fs'
  | Raise _ => fs
  end.

(** [[key for key in required_keys if key not in config_dict]] *)
Fixpoint missing_keys (keys : list string) (config_dict : json F)
  : result (list string) :=
  match keys with
  | [] => Ok []
  | key :: rest =>
      py_in key config_dict ≫= fun present : bool =>
      others ← missing_keys rest config_dict;
      Ok (if present then others else key :: others)
  end.

Definition load_config_try (fs : gmap string (text_file F)) (file_path : string)
  : result (json F) :=
  config_dict ← read_json fs file_path;
  missing ← missing_keys required_keys config_dict;
  match missing with
  | [] => Ok config_dict
  | _ => Raise KeyError
  end.

(** The three handlers return None; any other exception leaves the
    function. *)
Definition load_config (fs : gmap string (text_file F)) (file_path : string)
  : result (option (json F)) :=
  match load_config_try fs file_path with
  | Ok config_dict => Ok (Some config_dict)
  | Raise FileNotFoundError => Ok None
  | Raise ValueError => Ok None
  | Raise KeyError => Ok None
  | Raise e => Raise e
  end.

End defs.
End radio_manager.

(** ** Exact arithmetic: the transform, the logarithm and the
    specification's vocabulary *)

Section exact.
Local Open Scope R_scope.

(** Over exact arithmetic [np.fft.fft] is the discrete Fourier transform
    [X_k = sum_j x_j * exp(-2 pi i j k / n)]; it refuses an empty input.
    This is the transform of the examples over the reals; what is proved
    of the analysis holds of every transform handed to it. *)
Definition dft_twiddle (n j k : nat) : R * R :=
  let theta := 2 * PI * INR j * INR k / INR n in
  (cos theta, - sin theta).

Definition dft (xs : list (R * R)) : list (R * R) :=
  map (fun k =>
         c_sum (ops:=real_arith)
           (imap (fun j x => c_mul (ops:=real_arith) x
                               (dft_twiddle (length xs) j k)) xs))
      (seq 0 (length xs)).

Definition np_fft_exact (xs : list (R * R)) : result (list (R * R)) :=
  match xs with
  | [] => Raise ValueError
  | _ => Ok (dft xs)
  end.

(** [log10] of a positive real.  At 0, where [np.log10] returns -inf, the
    reals have no value to give: this function stands for [np.log10] at
    positive arguments only. *)
Definition np_log10_exact (x : R) : R := ln x / ln 10.

(** The words of the specification. *)
Definition Rsum (xs : list R) : R := fold_right Rplus 0 xs.

Definition population_mean (xs : list R) : R := Rsum xs / INR (length xs).

Definition population_variance (xs : list R) : R :=
  population_mean (map (fun x => (x - population_mean xs) ^ 2) xs).

Definition population_std (xs : list R) : R := sqrt (population_variance xs).

Definition magnitude (z : R * R) : R := sqrt (fst z ^ 2 + snd z ^ 2).

(** [m] is the least (greatest) entry of [xs]. *)
Definition is_minimum (xs : list R) (m : R) : Prop :=
  In m xs /\ forall x, In x xs -> m <= x.

Definition is_maximum (xs : list R) (m : R) : Prop :=
  In m xs /\ forall x, In x xs -> x <= m.

End exact.

(** What it means for an index to be that of the maximum, in the
    comparisons of the carrier. *)
Section ordering.
Context {F : Type} {ops : NpFloat F}.

(** The entries of [ms] are numbers the carrier orders: none is a NaN, and
    on them [<=] is total and transitive.  Every list of reals is such, and
    every list of IEEE numbers that holds no NaN. *)
Definition totally_ordered (ms : list F) : Prop :=
  (forall x, In x ms -> f_eqb x x = true) /\
  (forall x y, In x ms -> In y ms -> f_leb x y = true \/ f_leb y x = true) /\
  (forall x y z, In x ms -> In y ms -> In z ms ->
                 f_leb x y = true -> f_leb y z = true -> f_leb x z = true).

(** [k] is the lowest index at which [ms] is greatest: no entry exceeds
    [ms[k]], and every earlier one is strictly smaller. *)
Definition is_first_largest (ms : list F) (k : nat) : Prop :=
  exists m, ms !! k = Some m /\
            (forall j x, ms !! j = Some x -> f_leb x m = true) /\
            (forall j x, (j < k)%nat -> ms !! j = Some x -> f_leb m x = false).

End ordering.

(** *** The order of the IEEE values *)

(** A position on the number line for every IEEE value but NaN: the sign
    class, then exponent and mantissa, mirrored for negative numbers. *)
Definition SFrank (x : spec_float) : Z * Z * Z :=
  match x with
  | S754_infinity true => (-2, 0, 0)
  | S754_finite true m e => (-1, - e, - Z.pos m)
  | S754_finite false m e => (1, e, Z.pos m)
  | S754_infinity false => (2, 0, 0)
  | _ => (0, 0, 0)
  end%Z.

Definition rank_le (p q : Z * Z * Z) : Prop :=
  let '(c1, a1, b1) := p in
  let '(c2, a2, b2) := q in
  (c1 < c2 \/ (c1 = c2 /\ (a1 < a2 \/ (a1 = a2 /\ b1 <= b2))))%Z.


(** ** Concrete data used by the examples *)

Definition f32 (z : Z) : spec_float := @f_of_Z _ binary32 z.
Definition f64 (z : Z) : spec_float := @f_of_Z _ binary64 z.

(** The table of the test at the bottom of signal_processor.py. *)
Definition test_data : list (spec_float * spec_float) :=
  [(f32 1, f32 2); (f32 3, f32 4); (f32 5, f32 6)].

(** [DEFAULT_RADIO_CONFIG] *)
Definition DEFAULT_RADIO_CONFIG
  : signal_processor_backup.radio_config (F:=spec_float) :=
  {| signal_processor_backup.config_center_freq := f64 98700000;
     signal_processor_backup.config_sample_rate := f64 2400000;
     signal_processor_backup.config_gain := signal_processor_backup.SStr "auto";
     signal_processor_backup.config_device_id :=
       signal_processor_backup.SStr "rtl-sdr-01" |}.

(** A generator whose draws are 1, 2, 3, ... *)
Definition counting_rng : rng spec_float := fun i => f64 (Z.of_nat (S i)).

(** A size limit for the examples: 2^63 - 1 bytes at 16 bytes a sample. *)
Definition address_space_limit : Z := 2 ^ 59 - 1.

(** A working directory without subdirectories: a path can be opened for
    writing when it names no directory. *)
Definition flat_directory (path : string) : bool :=
  negb (str_contains "/" path).

(** Tables used below. *)
Definition annotated_test_table : list (spec_float * spec_float) :=
  signal_processor.create_iq_array (ops:=binary32)
    (Some test_data) (Some (f32 2400000)).

Definition negative_table : list (spec_float * spec_float) :=
  [(f32 (-1), f32 1); (f32 (-3), f32 1)].

Definition two_sample_table : list (spec_float * spec_float) :=
  [(f32 1, f32 2); (f32 3, f32 4)].

(** A record as [process_signal] builds it, the path [main.py] derives
    from its timestamp, and stores used by the examples. *)
Definition sample_record : signal_processor_backup.SignalData (F:=spec_float) :=
  {| signal_processor_backup.data :=
       signal_processor_backup.NdComplex1 [(f64 3, f64 4)];
     signal_processor_backup.sample_rate := f64 2400000;
     signal_processor_backup.center_freq := f64 98700000;
     signal_processor_backup.timestamp := f64 1700000000;
     signal_processor_backup.metadata :=
       signal_processor_backup.PyDict
         (list_to_map
            [("device_id"%string, signal_processor_backup.SStr "rtl-sdr-01");
             ("gain"%string, signal_processor_backup.SStr "auto");
             ("duration"%string, signal_processor_backup.SNum (f64 1));
             ("data_type"%string, signal_processor_backup.SStr "complex64")]) |}.

Definition sample_path : string := "data/signal_1700000000.npz".

Definition archive_without_metadata
  : gmap string (signal_processor_backup.file (F:=spec_float)) :=
  {[ "capture.npz"%string :=
       signal_processor_backup.NpzFile
         (list_to_map
            [("data"%string,
              signal_processor_backup.NdComplex1 [(f64 3, f64 4)]);
             ("sample_rate"%string,
              signal_processor_backup.NdFloat0 (f64 2400000));
             ("center_freq"%string,
              signal_processor_backup.NdFloat0 (f64 98700000));
             ("timestamp"%string,
              signal_processor_backup.NdFloat0 (f64 1700000000))]) ]}.

(** A container whose sample rate member is an array of two samples. *)
Definition archive_with_array_rate
  : gmap string (signal_processor_backup.file (F:=spec_float)) :=
  {[ "capture.npz"%string :=
       signal_processor_backup.NpzFile
         (list_to_map
            [("data"%string,
              signal_processor_backup.NdComplex1 [(f64 3, f64 4)]);
             ("sample_rate"%string,
              signal_processor_backup.NdComplex1
                [(f64 2400000, f64 0); (f64 2400000, f64 0)])]) ]}.

Definition archive_without_data
  : gmap string (signal_processor_backup.file (F:=spec_float)) :=
  {[ "capture.npz"%string :=
       signal_processor_backup.NpzFile
         (list_to_map
            [("sample_rate"%string,
              signal_processor_backup.NdFloat0 (f64 2400000))]) ]}.

(** Inputs over exact arithmetic. *)
Definition exact_table : list (R * R) :=
  [(1, 2); (3, 4); (5, 6); (2400000, 0)]%R.

Definition pythagorean_buffer : list (R * R) := [(3, 4); (0, 1)]%R.

Definition unit_tone : signal_processor_backup.SignalData (F:=R) :=
  {| signal_processor_backup.data :=
       signal_processor_backup.NdComplex1 [(1, 0)%R];
     signal_processor_backup.sample_rate := 1%R;
     signal_processor_backup.center_freq := 1%R;
     signal_processor_backup.timestamp := 0%R;
     signal_processor_backup.metadata := signal_processor_backup.PyDict ∅ |}.

(** An all-zero buffer and a short non-degenerate one. *)
Definition zero_buffer : list (spec_float * spec_float) := [(f64 0, f64 0)].

Definition short_buffer : list (spec_float * spec_float) :=
  [(f64 3, f64 4); (f64 0, f64 1)].

(** Configurations, handlers and records used below. *)
Definition nan_frequency_config : json spec_float :=
  JObj (list_to_map
    [("center_freq"%string, JFloat S754_nan);
     ("sample_rate"%string, JBool true);
     ("gain"%string, JStr "auto");
     ("device_id"%string, JStr "rtl-sdr-01")]).

Definition default_handler : config_handler.ConfigHandler (F:=spec_float) :=
  config_handler.init (ops:=binary64) "radio_config.json".


(** A value that is neither a dict, a list nor a str. *)
Definition is_atom {F : Type} (c : json F) : bool :=
  match c with
  | JNull | JBool _ | JInt _ | JFloat _ => true
  | _ => false
  end.

Definition number_document : gmap string (text_file spec_float) :=
  {[ "radio_config.json"%string := JsonText (JInt 42) ]}.

(** Two samples of opposite sign, whose spectrum peaks in the
    negative-frequency bin, and an impulse, whose two bins tie. *)
Definition alternating_tone : signal_processor_backup.SignalData (F:=R) :=
  {| signal_processor_backup.data :=
       signal_processor_backup.NdComplex1 [(1, 0); (-1, 0)]%R;
     signal_processor_backup.sample_rate := 2%R;
     signal_processor_backup.center_freq := 1%R;
     signal_processor_backup.timestamp := 0%R;
     signal_processor_backup.metadata := signal_processor_backup.PyDict ∅ |}.

Definition impulse : signal_processor_backup.SignalData (F:=R) :=
  {| signal_processor_backup.data :=
       signal_processor_backup.NdComplex1 [(1, 0); (0, 0)]%R;
     signal_processor_backup.sample_rate := 2%R;
     signal_processor_backup.center_freq := 1%R;
     signal_processor_backup.timestamp := 0%R;
     signal_processor_backup.metadata := signal_processor_backup.PyDict ∅ |}.

(** The sum and the difference of the binary64 samples 1 and -2^-60,
    which are the two bins of their transform: both round to 1. *)
Definition near_tie_spectrum : list (spec_float * spec_float) :=
  let a := (f64 1, f64 0) in
  let b := (@f_div _ binary64 (f64 (-1)) (f64 (2 ^ 60)), f64 0) in
  [c_add (ops:=binary64) a b; c_sub (ops:=binary64) a b].

Definition zero_rate_record : signal_processor_backup.SignalData (F:=R) :=
  {| signal_processor_backup.data :=
       signal_processor_backup.NdComplex1 [(1, 0)%R];
     signal_processor_backup.sample_rate := 0%R;
     signal_processor_backup.center_freq := 1%R;
     signal_processor_backup.timestamp := 0%R;
     signal_processor_backup.metadata := signal_processor_backup.PyDict ∅ |}.

(** * Properties *)

(** ** The threshold filter and the annotation row *)

Section iq_processing.
Context {F : Type} {ops : NpFloat F}.

Lemma np_where_gt_length (threshold : F) (xs : list F) :
  length (np_where_gt threshold xs) = length xs.
Proof. unfold np_where_gt. now rewrite length_map. Qed.

Lemma np_where_gt_lookup (threshold : F) (xs : list F) (k : nat) (x : F) :
  xs !! k = Some x ->
  np_where_gt threshold xs !! k
  = Some (if f_ltb threshold x then f_zero else x).
Proof.
  intros Hk. unfold np_where_gt. rewrite list_lookup_fmap, Hk. reflexivity.
Qed.

Lemma np_where_gt_In (threshold o : F) (xs : list F) :
  In o (np_where_gt threshold xs) ->
  o = f_zero \/ (In o xs /\ f_ltb threshold o = false).
Proof.
  unfold np_where_gt. rewrite in_map_iff. intros (x & Hx & Hin).
  destruct (f_ltb threshold x) eqn:E.
  - left. congruence.
  - right. subst o. split; assumption.
Qed.

Lemma np_where_gt_bounded (threshold : F) (xs : list F) :
  f_ltb threshold f_zero = false ->
  forall o, In o (np_where_gt threshold xs) -> f_ltb threshold o = false.
Proof.
  intros H0 o Ho. apply np_where_gt_In in Ho as [-> | [_ Ho]]; assumption.
Qed.

Lemma removelast_length_pred {A : Type} (l : list A) :
  length (removelast l) = pred (length l).
Proof.
  rewrite removelast_firstn_len, length_take. lia.
Qed.

Lemma annotation_needs_two_rows (iq_array : signal_processor.iq_table) :
  signal_processor.last_row_is_annotation iq_array = true ->
  (1 < length iq_array)%nat.
Proof.
  unfold signal_processor.last_row_is_annotation.
  intros H. apply andb_true_iff in H as [H _].
  now apply Nat.ltb_lt in H.
Qed.

Lemma data_rows_length (iq_array : signal_processor.iq_table) :
  length (signal_processor.data_rows iq_array)
  = if signal_processor.last_row_is_annotation iq_array
    then pred (length iq_array) else length iq_array.
Proof.
  unfold signal_processor.data_rows.
  destruct (signal_processor.last_row_is_annotation iq_array);
    [apply removelast_length_pred | reflexivity].
Qed.

Lemma data_rows_nonempty (iq_array : signal_processor.iq_table) :
  iq_array <> [] -> signal_processor.data_rows iq_array <> [].
Proof.
  intros Hne Hnil. apply (f_equal length) in Hnil.
  rewrite data_rows_length in Hnil. simpl in Hnil.
  destruct (signal_processor.last_row_is_annotation iq_array) eqn:E.
  - apply annotation_needs_two_rows in E. lia.
  - destruct iq_array; [congruence | discriminate].
Qed.

Lemma np_max_nonempty (xs : list F) :
  xs <> [] -> exists m, np_max xs = Ok m.
Proof. destruct xs; [congruence | eexists; reflexivity]. Qed.

Lemma np_min_nonempty (xs : list F) :
  xs <> [] -> exists m, np_min xs = Ok m.
Proof. destruct xs; [congruence | eexists; reflexivity]. Qed.

(** On a table with at least one row every reduction has an operand and
    the call returns; the result is determined field by field. *)
Lemma process_iq_data_returns (iq_array : signal_processor.iq_table) :
  iq_array <> [] ->
  exists r i_max i_min,
    signal_processor.process_iq_data iq_array = Ok r /\
    np_max (map fst (signal_processor.data_rows iq_array)) = Ok i_max /\
    np_min (map fst (signal_processor.data_rows iq_array)) = Ok i_min /\
    signal_processor.original_i r
    = map fst (signal_processor.data_rows iq_array) /\
    signal_processor.q_components r
    = map snd (signal_processor.data_rows iq_array) /\
    signal_processor.i_mean r = np_mean (signal_processor.original_i r) /\
    signal_processor.filtered_i r
    = np_where_gt (signal_processor.i_mean r) (signal_processor.original_i r) /\
    signal_processor.first_200_samples r = take 200 iq_array /\
    signal_processor.stats r
    = {| signal_processor.stats_i_mean := np_mean (signal_processor.original_i r);
         signal_processor.stats_i_std := np_std (signal_processor.original_i r);
         signal_processor.stats_q_mean := np_mean (signal_processor.q_components r);
         signal_processor.stats_q_std := np_std (signal_processor.q_components r);
         signal_processor.stats_i_max := i_max;
         signal_processor.stats_i_min := i_min |}.
Proof.
  intros Hne. apply data_rows_nonempty in Hne.
  assert (Hi : map fst (signal_processor.data_rows iq_array) <> []).
  { intros E. apply map_eq_nil in E. contradiction. }
  destruct (np_max_nonempty _ Hi) as [i_max Hmax].
  destruct (np_min_nonempty _ Hi) as [i_min Hmin].
  unfold signal_processor.process_iq_data.
  rewrite Hmax, Hmin. cbn.
  eexists. exists i_max, i_min. repeat split; reflexivity.
Qed.

Lemma process_iq_data_empty :
  signal_processor.process_iq_data (ops:=ops) [] = Raise ValueError.
Proof. reflexivity. Qed.

End iq_processing.

(** C3, as stated, fails: on the I column [-1, -3] the threshold is the
    mean -2; the sample -1 exceeds it and is replaced by 0, and that 0 is an
    output value strictly greater than the threshold. *)
Lemma filter_zero_exceeds_negative_threshold :
  exists r,
    signal_processor.process_iq_data (ops:=binary32) negative_table = Ok r /\
    signal_processor.i_mean r = f32 (-2) /\
    signal_processor.filtered_i r = [f32 0; f32 (-3)] /\
    exists o, In o (signal_processor.filtered_i r) /\
              @f_ltb _ binary32 (signal_processor.i_mean r) o = true.
Proof.
  eexists. split; [vm_compute; reflexivity |].
  split; [reflexivity |]. split; [reflexivity |].
  exists (f32 0). split; [left; reflexivity | reflexivity].
Qed.

(** C3 (amended).  For every threshold, the filter returns a column of the
    same length in which exactly the values strictly greater than the
    threshold are replaced by 0; every output value is the substituted 0 or
    a kept value that does not exceed the threshold, so no output value
    exceeds a threshold that is not negative.  [process_iq_data] applies the
    filter, with the I mean as threshold, to the I column of the data rows of
    any table with at least one row; the Q column, the row count and the
    original I column are returned unchanged. *)
Theorem filter_replaces_values_above_threshold :
  forall (F : Type) (ops : NpFloat F),
    (forall (threshold : F) (xs : list F),
        length (np_where_gt threshold xs) = length xs /\
        (forall k x, xs !! k = Some x ->
                     np_where_gt threshold xs !! k
                     = Some (if f_ltb threshold x then f_zero else x)) /\
        (forall o, In o (np_where_gt threshold xs) ->
                   o = f_zero \/ (In o xs /\ f_ltb threshold o = false)) /\
        (f_ltb threshold f_zero = false ->
         forall o, In o (np_where_gt threshold xs) ->
                   f_ltb threshold o = false)) /\
    (forall iq_array : signal_processor.iq_table,
        iq_array <> [] ->
        exists r,
          signal_processor.process_iq_data iq_array = Ok r /\
          signal_processor.original_i r
          = map fst (signal_processor.data_rows iq_array) /\
          signal_processor.q_components r
          = map snd (signal_processor.data_rows iq_array) /\
          signal_processor.i_mean r = np_mean (signal_processor.original_i r) /\
          signal_processor.filtered_i r
          = np_where_gt (signal_processor.i_mean r)
                        (signal_processor.original_i r) /\
          length (signal_processor.filtered_i r)
          = length (signal_processor.data_rows iq_array)).
Proof.
  intros F ops. split.
  - intros threshold xs. repeat split.
    + apply np_where_gt_length.
    + apply np_where_gt_lookup.
    + intros o. apply np_where_gt_In.
    + apply np_where_gt_bounded.
  - intros iq_array Hne.
    destruct (process_iq_data_returns iq_array Hne)
      as (r & i_max & i_min & Hr & _ & _ & Ho & Hq & Hm & Hf & _).
    exists r. repeat split; try assumption.
    rewrite Hf, np_where_gt_length, Ho. apply length_map.
Qed.

Lemma filter_replaces_values_above_threshold_witness :
  (forall o, In o (np_where_gt (ops:=binary32) (f32 3) [f32 1; f32 3; f32 5]) ->
             @f_ltb _ binary32 (f32 3) o = false) /\
  exists r,
    signal_processor.process_iq_data (ops:=binary32) annotated_test_table = Ok r /\
    signal_processor.filtered_i r = [f32 1; f32 3; f32 0].
Proof.
  destruct (filter_replaces_values_above_threshold spec_float binary32)
    as [Hfilter Hprocess].
  split.
  - destruct (Hfilter (f32 3) [f32 1; f32 3; f32 5]) as (_ & _ & _ & Hb).
    apply Hb. reflexivity.
  - destruct (Hprocess annotated_test_table) as (r & Hr & _ & _ & _ & Hf & _).
    + discriminate.
    + exists r. split; [exact Hr |].
      rewrite Hf. vm_compute in Hr. injection Hr as <-. reflexivity.
Defined.

Lemma create_iq_array_split {F : Type} {ops : NpFloat F}
  (rows : list (F * F)) (sr : F) :
  rows <> [] -> f_eqb sr sr = true -> f_eqb (f_zero (F:=F)) f_zero = true ->
  signal_processor.data_rows
    (signal_processor.create_iq_array (Some rows) (Some sr)) = rows.
Proof.
  intros Hne Hsr H0.
  unfold signal_processor.create_iq_array, signal_processor.data_rows,
    signal_processor.last_row_is_annotation.
  rewrite last_snoc, Hsr, H0, length_app. simpl.
  replace (1 <? length rows + 1)%nat with true.
  - simpl. apply removelast_last.
  - symmetry. apply Nat.ltb_lt. destruct rows; [congruence | simpl; lia].
Qed.

(** C5.  For every table of real values, that is, whose last row has an I
    value that is a number, the last row is treated as a sample-rate
    annotation iff the table has more than one row and the last row's Q
    column equals 0, and that row is then excluded from the data; over
    exact arithmetic this holds of every table.  A table built from at
    least one row with a sample rate appended splits back into the
    original rows; in particular [[1,2],[3,4],[5,6]] with 2.4e6 appended
    is a 4-row table whose last row is [2.4e6, 0] and whose data are the
    original 3 rows. *)
Theorem annotation_row_is_split_off :
  (forall (F : Type) (ops : NpFloat F) (iq_array : signal_processor.iq_table),
      (forall i q, last iq_array = Some (i, q) -> f_eqb i i = true) ->
      (signal_processor.last_row_is_annotation iq_array = true
       <-> (1 < length iq_array)%nat /\
           exists i q, last iq_array = Some (i, q) /\
                       f_eqb q f_zero = true) /\
      signal_processor.data_rows iq_array
      = (if signal_processor.last_row_is_annotation iq_array
         then removelast iq_array else iq_array)) /\
  (forall iq_array : list (R * R),
      signal_processor.last_row_is_annotation (ops:=real_arith) iq_array = true
      <-> (1 < length iq_array)%nat /\
          exists i, last iq_array = Some (i, 0%R)) /\
  (forall (F : Type) (ops : NpFloat F) (rows : list (F * F)) (sr : F),
      rows <> [] -> f_eqb sr sr = true ->
      f_eqb (f_zero (F:=F)) f_zero = true ->
      signal_processor.data_rows
        (signal_processor.create_iq_array (Some rows) (Some sr)) = rows) /\
  annotated_test_table = test_data ++ [(f32 2400000, f32 0)] /\
  length annotated_test_table = 4%nat /\
  signal_processor.last_row_is_annotation (ops:=binary32) annotated_test_table
  = true /\
  signal_processor.data_rows (ops:=binary32) annotated_test_table = test_data.
Proof.
  split; [| split; [| split; [| repeat split]]].
  - intros F ops iq_array Hnum. split; [| reflexivity].
    unfold signal_processor.last_row_is_annotation. split.
    + intros H. apply andb_true_iff in H as [Hlen Hlast].
      apply Nat.ltb_lt in Hlen. split; [assumption |].
      destruct (last iq_array) as [[i q] |]; [| discriminate].
      apply andb_true_iff in Hlast as [Hi Hq]. exists i, q. auto.
    + intros (Hlen & i & q & Hlast & Hq).
      rewrite Hlast, (Hnum i q Hlast), Hq.
      apply Nat.ltb_lt in Hlen. now rewrite Hlen.
  - intros iq_array. unfold signal_processor.last_row_is_annotation.
    rewrite andb_true_iff, Nat.ltb_lt.
    split; intros [Hlen Hlast]; (split; [exact Hlen |]).
    + destruct (last iq_array) as [[i q] |]; [| discriminate].
      exists i. f_equal. f_equal. unfold f_zero in Hlast.
      cbn [f_eqb f_of_Z real_arith] in Hlast.
      destruct (Req_dec_T q 0); [assumption |].
      rewrite andb_false_r in Hlast. discriminate.
    + destruct Hlast as [i ->]. unfold f_zero.
      cbn [f_eqb f_of_Z real_arith].
      destruct (Req_dec_T i i); [| congruence].
      destruct (Req_dec_T 0 0); [reflexivity | congruence].
  - intros F ops rows sr. apply create_iq_array_split.
Qed.

Lemma annotation_row_is_split_off_witness :
  signal_processor.last_row_is_annotation (ops:=binary32) annotated_test_table
  = true /\
  signal_processor.last_row_is_annotation (ops:=real_arith) exact_table
  = true /\
  signal_processor.data_rows (ops:=binary32)
    (signal_processor.create_iq_array (ops:=binary32)
       (Some test_data) (Some (f32 2400000))) = test_data.
Proof.
  destruct annotation_row_is_split_off as (Hiff & Hreal & Hsplit & _).
  split; [| split].
  - apply (Hiff spec_float binary32 annotated_test_table).
    + intros i q [= <- <-]. reflexivity.
    + split; [vm_compute; lia |].
      exists (f32 2400000), (f32 0). split; reflexivity.
  - apply (Hreal exact_table).
    split; [simpl; lia |]. exists 2400000%R. reflexivity.
  - apply (Hsplit spec_float binary32 test_data (f32 2400000)).
    + discriminate.
    + reflexivity.
    + reflexivity.
Defined.

(** ** The two variants of the IQ processing step *)

Lemma fallback_rows {F : Type} {ops : NpFloat F} (iq_array : list (F * F)) :
  let r := radio_basic_toolkit_backup.process_iq_data iq_array in
  let rows := if (1 <? length iq_array)%nat
              then removelast iq_array else iq_array in
  radio_basic_toolkit_backup.original_i r = map fst rows /\
  radio_basic_toolkit_backup.q_components r = map snd rows /\
  radio_basic_toolkit_backup.i_mean r = np_mean (map fst rows) /\
  radio_basic_toolkit_backup.filtered_i r
  = np_where_gt (np_mean (map fst rows)) (map fst rows).
Proof.
  unfold radio_basic_toolkit_backup.process_iq_data. simpl.
  destruct (1 <? length iq_array)%nat; repeat split.
Qed.

Lemma variants_keep_same_rows {F : Type} {ops : NpFloat F}
  (iq_array : list (F * F)) :
  length iq_array = 1%nat \/
  signal_processor.last_row_is_annotation iq_array = true ->
  signal_processor.data_rows iq_array
  = if (1 <? length iq_array)%nat then removelast iq_array else iq_array.
Proof.
  unfold signal_processor.data_rows. intros [H1 | Ha].
  - unfold signal_processor.last_row_is_annotation. now rewrite H1.
  - rewrite Ha. apply annotation_needs_two_rows in Ha.
    apply Nat.ltb_lt in Ha. now rewrite Ha.
Qed.

(** C9, as stated, fails: on [[1, 2], [3, 4]] the class method keeps both
    rows (the last row's Q is not 0) while the fallback drops the last row
    of any table with more than one row; the means are 2 and 1. *)
Lemma process_iq_data_variants_differ :
  exists r,
    signal_processor.process_iq_data (ops:=binary32) two_sample_table = Ok r /\
    signal_processor.i_mean r = f32 2 /\
    radio_basic_toolkit_backup.i_mean
      (radio_basic_toolkit_backup.process_iq_data (ops:=binary32)
         two_sample_table) = f32 1 /\
    signal_processor.q_components r = [f32 2; f32 4] /\
    radio_basic_toolkit_backup.q_components
      (radio_basic_toolkit_backup.process_iq_data (ops:=binary32)
         two_sample_table) = [f32 2] /\
    signal_processor.filtered_i r = [f32 1; f32 0] /\
    radio_basic_toolkit_backup.filtered_i
      (radio_basic_toolkit_backup.process_iq_data (ops:=binary32)
         two_sample_table) = [f32 1].
Proof.
  eexists. split; [vm_compute; reflexivity |]. repeat split.
Qed.

(** C9 (amended).  The fallback excludes the last row of every table with
    more than one row; the class method excludes it only when it is an
    annotation row.  On every table with at least one row that has a single
    row or ends in an annotation row, the two variants return equal
    i_mean, filtered_i, q_components (and original_i). *)
Theorem process_iq_data_variants_agree_on_annotated_tables :
  forall (F : Type) (ops : NpFloat F) (iq_array : list (F * F)),
    radio_basic_toolkit_backup.original_i
      (radio_basic_toolkit_backup.process_iq_data iq_array)
    = map fst (if (1 <? length iq_array)%nat
               then removelast iq_array else iq_array) /\
    (iq_array <> [] ->
     exists r,
       signal_processor.process_iq_data iq_array = Ok r /\
       signal_processor.original_i r
       = map fst (if signal_processor.last_row_is_annotation iq_array
                  then removelast iq_array else iq_array) /\
       (length iq_array = 1%nat \/
        signal_processor.last_row_is_annotation iq_array = true ->
        signal_processor.i_mean r
        = radio_basic_toolkit_backup.i_mean
            (radio_basic_toolkit_backup.process_iq_data iq_array) /\
        signal_processor.filtered_i r
        = radio_basic_toolkit_backup.filtered_i
            (radio_basic_toolkit_backup.process_iq_data iq_array) /\
        signal_processor.q_components r
        = radio_basic_toolkit_backup.q_components
            (radio_basic_toolkit_backup.process_iq_data iq_array) /\
        signal_processor.original_i r
        = radio_basic_toolkit_backup.original_i
            (radio_basic_toolkit_backup.process_iq_data iq_array))).
Proof.
  intros F ops iq_array.
  destruct (fallback_rows iq_array) as (Ho & Hq & Hm & Hf).
  split; [exact Ho |].
  intros Hne.
  destruct (process_iq_data_returns iq_array Hne)
    as (r & i_max & i_min & Hr & _ & _ & Ho' & Hq' & Hm' & Hf' & _).
  exists r. split; [exact Hr |]. split; [exact Ho' |].
  intros Hcase.
  pose proof (variants_keep_same_rows iq_array Hcase) as Hrows.
  rewrite Ho, Hq, Hm, Hf, Hf', Hm', Ho', Hq', Hrows. repeat split.
Qed.

Lemma process_iq_data_variants_agree_on_annotated_tables_witness :
  exists r,
    signal_processor.process_iq_data (ops:=binary32) annotated_test_table = Ok r /\
    signal_processor.i_mean r
    = radio_basic_toolkit_backup.i_mean
        (radio_basic_toolkit_backup.process_iq_data (ops:=binary32)
           annotated_test_table).
Proof.
  destruct (process_iq_data_variants_agree_on_annotated_tables
              spec_float binary32 annotated_test_table) as [_ H].
  destruct H as (r & Hr & _ & Hagree).
  - discriminate.
  - destruct Hagree as (Hm & _).
    + right. reflexivity.
    + exists r. split; assumption.
Defined.

(** ** Exact arithmetic: the reductions compute the population statistics *)

Section exact_arithmetic.
Local Open Scope R_scope.

Lemma fold_left_Rplus (xs : list R) (a : R) :
  fold_left Rplus xs a = a + Rsum xs.
Proof.
  revert a. induction xs as [| x t IH]; intros a; simpl.
  - lra.
  - rewrite IH. lra.
Qed.

Lemma np_sum_exact (xs : list R) : np_sum (ops:=real_arith) xs = Rsum xs.
Proof.
  unfold np_sum. simpl. rewrite fold_left_Rplus. unfold f_zero. simpl. lra.
Qed.

Lemma np_mean_exact (xs : list R) :
  np_mean (ops:=real_arith) xs = population_mean xs.
Proof.
  unfold np_mean, population_mean, f_of_nat. simpl.
  now rewrite np_sum_exact, INR_IZR_INZ.
Qed.

Lemma np_var_exact (xs : list R) :
  np_var (ops:=real_arith) xs = population_variance xs.
Proof.
  unfold np_var, population_variance. rewrite !np_mean_exact. f_equal.
  apply map_ext. intros x. simpl. ring.
Qed.

Lemma np_std_exact (xs : list R) :
  np_std (ops:=real_arith) xs = population_std xs.
Proof. unfold np_std, population_std. rewrite np_var_exact. reflexivity. Qed.

Lemma c_abs_exact (z : R * R) : c_abs (ops:=real_arith) z = magnitude z.
Proof. unfold c_abs, magnitude. simpl. f_equal. ring. Qed.

Lemma np_maximum_exact (a b : R) :
  np_maximum (ops:=real_arith) a b = Rmax a b.
Proof.
  unfold np_maximum, Rmax. simpl.
  destruct (Rle_dec b a), (Req_dec_T a a), (Rle_dec a b);
    simpl; try reflexivity; try lra; congruence.
Qed.

Lemma np_minimum_exact (a b : R) :
  np_minimum (ops:=real_arith) a b = Rmin a b.
Proof.
  unfold np_minimum, Rmin. simpl.
  destruct (Rle_dec a b), (Req_dec_T a a);
    simpl; try reflexivity; try lra; congruence.
Qed.

Lemma fold_left_maximum (t : list R) (x : R) :
  is_maximum (x :: t) (fold_left (np_maximum (ops:=real_arith)) t x).
Proof.
  revert x. induction t as [| y t IH]; intros x; simpl.
  - split; [now left |]. intros z [<- | []]. lra.
  - destruct (IH (np_maximum (ops:=real_arith) x y)) as [Hin Hle].
    rewrite np_maximum_exact in *.
    split.
    + destruct Hin as [Hin | Hin]; [| now right; right].
      rewrite <- Hin. unfold Rmax. destruct (Rle_dec x y); [right | ]; now left.
    + intros z [<- | [<- | Hz]].
      * eapply Rle_trans; [apply Rmax_l | apply Hle; now left].
      * eapply Rle_trans; [apply Rmax_r | apply Hle; now left].
      * apply Hle. now right.
Qed.

Lemma fold_left_minimum (t : list R) (x : R) :
  is_minimum (x :: t) (fold_left (np_minimum (ops:=real_arith)) t x).
Proof.
  revert x. induction t as [| y t IH]; intros x; simpl.
  - split; [now left |]. intros z [<- | []]. lra.
  - destruct (IH (np_minimum (ops:=real_arith) x y)) as [Hin Hle].
    rewrite np_minimum_exact in *.
    split.
    + destruct Hin as [Hin | Hin]; [| now right; right].
      rewrite <- Hin. unfold Rmin. destruct (Rle_dec x y); [| right]; now left.
    + intros z [<- | [<- | Hz]].
      * eapply Rle_trans; [apply Hle; now left | apply Rmin_l].
      * eapply Rle_trans; [apply Hle; now left | apply Rmin_r].
      * apply Hle. now right.
Qed.

Lemma np_max_exact (xs : list R) (m : R) :
  np_max (ops:=real_arith) xs = Ok m -> is_maximum xs m.
Proof.
  destruct xs as [| x t]; [discriminate |]. simpl. intros [= <-].
  apply fold_left_maximum.
Qed.

Lemma np_min_exact (xs : list R) (m : R) :
  np_min (ops:=real_arith) xs = Ok m -> is_minimum xs m.
Proof.
  destruct xs as [| x t]; [discriminate |]. simpl. intros [= <-].
  apply fold_left_minimum.
Qed.

Lemma is_maximum_unique (xs : list R) (m m' : R) :
  is_maximum xs m -> is_maximum xs m' -> m = m'.
Proof.
  intros [Hin Hle] [Hin' Hle']. apply Rle_antisym; auto.
Qed.

End exact_arithmetic.

Local Open Scope R_scope.

(** C7.  The statistics are computed over the I and Q columns of the data
    rows, the rows left after the annotation split.  With zero data rows the
    call raises (the maximum of an empty column has no value) and returns
    nothing.  On the table [[1,2],[3,4],[5,6]] with its annotation row the I
    column is [1,3,5] and i_mean = 3, i_min = 1, i_max = 5.  Over exact
    arithmetic, for every table with at least one row, the six reported
    values are the population mean and standard deviation of the I and of
    the Q column and the least and greatest I value. *)
Theorem statistics_are_population_statistics :
  (forall (F : Type) (ops : NpFloat F) (iq_array : signal_processor.iq_table),
      signal_processor.data_rows iq_array = [] ->
      signal_processor.process_iq_data iq_array = Raise ValueError) /\
  (exists r,
      signal_processor.process_iq_data (ops:=binary32) annotated_test_table
      = Ok r /\
      signal_processor.original_i r = [f32 1; f32 3; f32 5] /\
      signal_processor.stats_i_mean (signal_processor.stats r) = f32 3 /\
      signal_processor.stats_i_min (signal_processor.stats r) = f32 1 /\
      signal_processor.stats_i_max (signal_processor.stats r) = f32 5) /\
  (forall iq_array : list (R * R),
      iq_array <> [] ->
      exists r,
        signal_processor.process_iq_data (ops:=real_arith) iq_array = Ok r /\
        let i_components :=
          map fst (signal_processor.data_rows (ops:=real_arith) iq_array) in
        let q_components :=
          map snd (signal_processor.data_rows (ops:=real_arith) iq_array) in
        signal_processor.stats_i_mean (signal_processor.stats r)
        = population_mean i_components /\
        signal_processor.stats_i_std (signal_processor.stats r)
        = population_std i_components /\
        signal_processor.stats_q_mean (signal_processor.stats r)
        = population_mean q_components /\
        signal_processor.stats_q_std (signal_processor.stats r)
        = population_std q_components /\
        is_minimum i_components
          (signal_processor.stats_i_min (signal_processor.stats r)) /\
        is_maximum i_components
          (signal_processor.stats_i_max (signal_processor.stats r))).
Proof.
  split; [| split].
  - intros F ops iq_array Hrows.
    destruct iq_array as [| row rest]; [reflexivity |].
    exfalso. apply (data_rows_nonempty (row :: rest)); [discriminate | exact Hrows].
  - eexists. split; [vm_compute; reflexivity |]. repeat split.
  - intros iq_array Hne.
    destruct (process_iq_data_returns (ops:=real_arith) iq_array Hne)
      as (r & i_max & i_min & Hr & Hmax & Hmin & Ho & Hq & _ & _ & _ & Hs).
    exists r. split; [exact Hr |]. rewrite Hs, Ho, Hq. cbn.
    repeat split.
    + apply np_mean_exact.
    + apply np_std_exact.
    + apply np_mean_exact.
    + apply np_std_exact.
    + apply np_min_exact in Hmin. apply Hmin.
    + apply np_min_exact in Hmin. apply Hmin.
    + apply np_max_exact in Hmax. apply Hmax.
    + apply np_max_exact in Hmax. apply Hmax.
Qed.

Lemma statistics_are_population_statistics_witness :
  signal_processor.process_iq_data (ops:=binary32) [] = Raise ValueError /\
  exists r,
    signal_processor.process_iq_data (ops:=real_arith) exact_table = Ok r /\
    signal_processor.stats_i_mean (signal_processor.stats r)
    = population_mean
        (map fst (signal_processor.data_rows (ops:=real_arith) exact_table)).
Proof.
  destruct statistics_are_population_statistics as (Hempty & _ & Hexact).
  split.
  - apply (Hempty spec_float binary32 []). reflexivity.
  - destruct (Hexact exact_table) as (r & Hr & Hmean & _).
    + discriminate.
    + exists r. split; assumption.
Defined.

Local Close Scope R_scope.

(** ** Acquisition and preprocessing *)

Section acquisition.
Context {F : Type} {ops : NpFloat F}.
Import signal_processor_backup.

Lemma conv_same_length (a : list (complex F)) (v : list F) :
  a <> [] -> v <> [] -> (length v <= length a)%nat ->
  exists r, np_convolve_same a v = Ok r /\ length r = length a.
Proof.
  intros Ha Hv Hle. unfold np_convolve_same.
  destruct a as [| z a']; [congruence |].
  destruct v as [| c v']; [congruence |].
  eexists. split; [reflexivity |].
  rewrite length_map, length_seq. apply Nat.max_l. exact Hle.
Qed.

Lemma signal_normalized_length (signal : list (complex F)) (peak : F) :
  length (signal_normalized signal peak) = length signal.
Proof. apply length_map. Qed.

(** The [try] block raises exactly on the empty buffer, where [np.max]
    has nothing to reduce. *)
Lemma preprocess_try_empty :
  _preprocess_signal_try (ops:=ops) [] = Raise ValueError.
Proof. reflexivity. Qed.

Lemma moving_average_filter_returns (xs : list (complex F)) :
  xs <> [] ->
  exists r,
    moving_average_filter xs = Ok r /\
    length r = length xs /\
    ((length xs < 20)%nat -> r = xs).
Proof.
  intros Hne. unfold moving_average_filter.
  set (w := Z.min 100 (Z.of_nat (length xs) / 10)).
  assert (Hw : (w <= Z.of_nat (length xs) / 10)%Z) by apply Z.le_min_r.
  assert (Hdiv : (Z.of_nat (length xs) / 10 <= Z.of_nat (length xs))%Z).
  { apply Z.div_le_upper_bound; lia. }
  destruct (1 <? w)%Z eqn:E.
  - apply Z.ltb_lt in E.
    destruct (conv_same_length xs
                (repeat (f_div f_one (f_of_Z w)) (Z.to_nat w)))
      as (r & Hr & Hlen).
    + exact Hne.
    + intros H. apply (f_equal length) in H. rewrite repeat_length in H.
      simpl in H. lia.
    + rewrite repeat_length. lia.
    + exists r. repeat split; [exact Hr | exact Hlen |].
      intros Hshort.
      assert (Z.of_nat (length xs) / 10 < 2)%Z
        by (apply Z.div_lt_upper_bound; lia).
      lia.
  - eexists. repeat split.
Qed.

Lemma preprocess_try_nonempty (signal : list (complex F)) :
  signal <> [] ->
  exists peak r,
    np_max (map c_abs signal) = Ok peak /\
    moving_average_filter (signal_normalized signal peak) = Ok r /\
    _preprocess_signal_try signal = Ok r /\
    length r = length signal /\
    ((length signal < 20)%nat -> r = signal_normalized signal peak).
Proof.
  intros Hne.
  assert (Hm : map c_abs signal <> []).
  { intros E. apply map_eq_nil in E. contradiction. }
  destruct (np_max_nonempty _ Hm) as [peak Hpeak].
  destruct (moving_average_filter_returns (signal_normalized signal peak))
    as (r & Hr & Hlen & Hshort).
  { intros E. apply map_eq_nil in E. contradiction. }
  rewrite signal_normalized_length in Hlen, Hshort.
  exists peak, r. unfold _preprocess_signal_try. rewrite Hpeak. cbn.
  repeat split; assumption.
Qed.

Lemma preprocess_try_raises (signal : list (complex F)) (e : exn) :
  _preprocess_signal_try signal = Raise e -> signal = [].
Proof.
  intros H. destruct signal as [| z t]; [reflexivity |].
  destruct (preprocess_try_nonempty (z :: t)) as (p & r & _ & _ & Hr & _);
    [discriminate | congruence].
Qed.

Lemma preprocess_length (signal : list (complex F)) :
  length (_preprocess_signal signal) = length signal.
Proof.
  unfold _preprocess_signal.
  destruct signal as [| z t]; [reflexivity |].
  destruct (preprocess_try_nonempty (z :: t)) as (p & r & _ & _ & Hr & Hlen & _);
    [discriminate |].
  rewrite Hr. exact Hlen.
Qed.

(** What the simulated acquisition returns, by the value of
    [int(sample_rate * duration)]. *)
Lemma simulate_signal_acquisition_cases (max_size : Z) (config : radio_config)
  (g : rng F) (duration : F) :
  match f_to_Z (f_mul (config_sample_rate config) duration) with
  | None => _simulate_signal_acquisition max_size config g duration = None
  | Some n =>
      if (n <? 0)%Z || (max_size <? n)%Z
      then _simulate_signal_acquisition max_size config g duration = None
      else exists signal,
          _simulate_signal_acquisition max_size config g duration
          = Some signal /\
          length signal = Z.to_nat n
  end.
Proof.
  unfold _simulate_signal_acquisition, py_int.
  destruct (f_to_Z (f_mul (config_sample_rate config) duration)) as [n |];
    [| reflexivity].
  cbn. unfold np_random_normal.
  destruct ((n <? 0)%Z || (max_size <? n)%Z) eqn:E; [reflexivity |]. cbn.
  eexists. split; [reflexivity |].
  rewrite length_zip_with, !length_map, !length_seq. lia.
Qed.

End acquisition.

(** C2, as stated, fails: with a zero duration the sample count is 0, the
    generator returns an empty buffer without raising, preprocessing hands
    the empty buffer back, and [process_signal] returns a record with no
    samples instead of failing. *)
Lemma zero_duration_yields_empty_record :
  @f_to_Z _ binary64
    (@f_mul _ binary64
       (signal_processor_backup.config_sample_rate DEFAULT_RADIO_CONFIG) (f64 0))
  = Some 0%Z /\
  exists r,
    signal_processor_backup.process_signal (ops:=binary64)
      address_space_limit DEFAULT_RADIO_CONFIG counting_rng (f64 1700000000)
      (f64 0) = Some r /\
    signal_processor_backup.data r = signal_processor_backup.NdComplex1 [].
Proof.
  split; [reflexivity |].
  eexists. split; [vm_compute; reflexivity | reflexivity].
Qed.

(** The count is truncated, not rounded: 2.4e6 * 1.2e-6 = 2.88 gives two
    samples. *)
Example sample_count_is_truncated :
  @f_to_Z _ binary64
    (@f_mul _ binary64 (f64 2400000) (@f_div _ binary64 (f64 12) (f64 10000000)))
  = Some 2%Z.
Proof. reflexivity. Qed.

(** C2 (amended).  The sample count is [int(sample_rate * duration)], the
    product truncated toward zero.  When the conversion fails, when the
    count is negative and when it exceeds the largest array the interpreter
    can create, [process_signal] fails (returns None).  For every count n
    from 0 up to that size it returns a record holding exactly n samples,
    together with the configured sample rate and centre frequency and the
    current time; for n = 0 that record is empty. *)
Theorem process_signal_sample_count :
  forall (F : Type) (ops : NpFloat F) (max_size : Z)
         (config : signal_processor_backup.radio_config)
         (g : rng F) (now duration : F),
    match f_to_Z (f_mul (signal_processor_backup.config_sample_rate config)
                        duration) with
    | None =>
        signal_processor_backup.process_signal max_size config g now duration
        = None
    | Some n =>
        if (n <? 0)%Z || (max_size <? n)%Z
        then signal_processor_backup.process_signal max_size config g now
               duration = None
        else exists r xs,
            signal_processor_backup.process_signal max_size config g now
              duration = Some r /\
            signal_processor_backup.data r
            = signal_processor_backup.NdComplex1 xs /\
            length xs = Z.to_nat n /\
            signal_processor_backup.sample_rate r
            = signal_processor_backup.config_sample_rate config /\
            signal_processor_backup.center_freq r
            = signal_processor_backup.config_center_freq config /\
            signal_processor_backup.timestamp r = now
    end.
Proof.
  intros F ops max_size config g now duration.
  pose proof (simulate_signal_acquisition_cases max_size config g duration)
    as H.
  unfold signal_processor_backup.process_signal.
  destruct (f_to_Z _) as [n |].
  - destruct ((n <? 0)%Z || (max_size <? n)%Z).
    + now rewrite H.
    + destruct H as (signal & -> & Hlen).
      eexists. eexists. repeat split.
      rewrite preprocess_length. exact Hlen.
  - now rewrite H.
Qed.

(** A request beyond the size limit fails: 2.4e6 samples a second for 1e13
    seconds. *)
Example oversized_request_fails :
  signal_processor_backup.process_signal (ops:=binary64)
    address_space_limit DEFAULT_RADIO_CONFIG counting_rng (f64 1700000000)
    (f64 10000000000000) = None.
Proof. reflexivity. Qed.

(** C10.  Whenever the body of [_preprocess_signal] raises, the handler
    returns the input buffer unchanged; the empty buffer makes it raise; and
    [process_signal] then wraps the raw acquisition buffer, neither
    normalized nor smoothed, into a record it returns as a success. *)
Theorem preprocess_failure_is_silent :
  forall (F : Type) (ops : NpFloat F),
    (forall (signal : list (complex F)) (e : exn),
        signal_processor_backup._preprocess_signal_try signal = Raise e ->
        signal_processor_backup._preprocess_signal signal = signal) /\
    signal_processor_backup._preprocess_signal_try (ops:=ops) []
    = Raise ValueError /\
    (forall (max_size : Z) (config : signal_processor_backup.radio_config)
            (g : rng F) (now duration : F) (signal : list (complex F))
            (e : exn),
        signal_processor_backup._simulate_signal_acquisition max_size config g
          duration = Some signal ->
        signal_processor_backup._preprocess_signal_try signal = Raise e ->
        exists r,
          signal_processor_backup.process_signal max_size config g now duration
          = Some r /\
          signal_processor_backup.data r
          = signal_processor_backup.NdComplex1 signal).
Proof.
  intros F ops. split; [| split].
  - intros signal e H.
    unfold signal_processor_backup._preprocess_signal. now rewrite H.
  - reflexivity.
  - intros max_size config g now duration signal e Hacq Hraise.
    unfold signal_processor_backup.process_signal,
      signal_processor_backup._preprocess_signal.
    rewrite Hacq, Hraise. eexists. split; reflexivity.
Qed.

Lemma preprocess_failure_is_silent_witness :
  signal_processor_backup._preprocess_signal (ops:=binary64) [] = [] /\
  exists r,
    signal_processor_backup.process_signal (ops:=binary64)
      address_space_limit DEFAULT_RADIO_CONFIG counting_rng (f64 1700000000)
      (f64 0) = Some r /\
    signal_processor_backup.data r = signal_processor_backup.NdComplex1 [].
Proof.
  destruct (preprocess_failure_is_silent spec_float binary64)
    as (Hcatch & Hraise & Hrecord).
  split.
  - apply (Hcatch [] ValueError). exact Hraise.
  - apply (Hrecord address_space_limit DEFAULT_RADIO_CONFIG counting_rng
             (f64 1700000000) (f64 0) [] ValueError).
    + reflexivity.
    + exact Hraise.
Defined.

(** ** Normalisation *)

Section normalisation.
Local Open Scope R_scope.

Lemma magnitude_nonneg (z : R * R) : 0 <= magnitude z.
Proof. apply sqrt_pos. Qed.

Lemma magnitude_div (z : R * R) (m : R) :
  0 < m -> magnitude (c_div_real (ops:=real_arith) z m) = magnitude z / m.
Proof.
  intros Hm. destruct z as [a b]. unfold magnitude, c_div_real.
  cbn [fst snd f_div real_arith].
  replace ((a / m) ^ 2 + (b / m) ^ 2)
    with ((a ^ 2 + b ^ 2) / (m * m)) by (field; lra).
  rewrite sqrt_div_alt by nra.
  rewrite sqrt_square by lra. reflexivity.
Qed.

(** After the division the largest magnitude is exactly 1. *)
Lemma normalized_peak_is_one (signal : list (R * R)) (peak : R) :
  np_max (ops:=real_arith) (map (c_abs (ops:=real_arith)) signal) = Ok peak ->
  peak <> 0 ->
  np_max (ops:=real_arith)
    (map (c_abs (ops:=real_arith))
       (signal_processor_backup.signal_normalized (ops:=real_arith) signal peak))
  = Ok 1.
Proof.
  intros Hpeak Hnz.
  pose proof (np_max_exact _ _ Hpeak) as [Hin Hle].
  apply in_map_iff in Hin as (z0 & Hz0 & Hin0).
  rewrite c_abs_exact in Hz0.
  assert (Hpos : 0 < peak).
  { pose proof (magnitude_nonneg z0). lra. }
  destruct (np_max_nonempty (ops:=real_arith)
              (map (c_abs (ops:=real_arith))
                 (signal_processor_backup.signal_normalized (ops:=real_arith)
                    signal peak))) as [m Hm].
  { intros E. apply map_eq_nil in E. apply map_eq_nil in E.
    subst signal. destruct Hin0. }
  rewrite Hm. f_equal.
  apply (is_maximum_unique _ _ _ (np_max_exact _ _ Hm)).
  unfold signal_processor_backup.signal_normalized. split.
  - apply in_map_iff. exists (c_div_real (ops:=real_arith) z0 peak). split.
    + rewrite c_abs_exact, magnitude_div, Hz0 by assumption. field. lra.
    + apply in_map_iff. exists z0. split; [reflexivity | assumption].
  - intros x Hx. apply in_map_iff in Hx as (w & <- & Hw).
    apply in_map_iff in Hw as (z & <- & Hz).
    rewrite c_abs_exact, magnitude_div by assumption.
    assert (magnitude z <= peak).
    { apply Hle. apply in_map_iff. exists z. split; [apply c_abs_exact | assumption]. }
    apply Rmult_le_reg_r with peak; [assumption |].
    unfold Rdiv. rewrite Rmult_assoc, Rinv_l by lra. lra.
Qed.

End normalisation.

Local Open Scope R_scope.

(** C4, as stated, fails: the all-zero buffer [0+0j] is not left alone.
    Its peak magnitude is 0, the division is carried out all the same, and
    0/0 turns the sample into NaN+NaNj. *)
Lemma zero_buffer_is_divided_by_zero :
  signal_processor_backup._preprocess_signal (ops:=binary64) zero_buffer
  = [(S754_nan, S754_nan)] /\
  signal_processor_backup._preprocess_signal (ops:=binary64) zero_buffer
  <> zero_buffer.
Proof. split; [reflexivity | discriminate]. Qed.

(** C4 (amended).  Normalisation divides every sample of a non-empty
    buffer by the peak magnitude, whatever that peak is; there is no test
    for a zero peak (the buffer is then smoothed, and a buffer of fewer than
    20 samples is returned as divided).  Over exact arithmetic, whenever the
    peak magnitude is not 0 the largest magnitude after the division is
    exactly 1.  The empty buffer, on which the peak cannot be taken, is
    handed back as it is. *)
Theorem normalization_divides_by_peak :
  (forall (F : Type) (ops : NpFloat F) (signal : list (complex F)),
      signal <> [] ->
      exists peak smoothed,
        np_max (map c_abs signal) = Ok peak /\
        signal_processor_backup.moving_average_filter
          (signal_processor_backup.signal_normalized signal peak) = Ok smoothed /\
        signal_processor_backup._preprocess_signal signal = smoothed /\
        ((length signal < 20)%nat ->
         signal_processor_backup._preprocess_signal signal
         = map (fun z => c_div_real z peak) signal)) /\
  (forall (F : Type) (ops : NpFloat F),
      signal_processor_backup._preprocess_signal (ops:=ops) [] = []) /\
  (forall (signal : list (R * R)) (peak : R),
      np_max (ops:=real_arith) (map (c_abs (ops:=real_arith)) signal) = Ok peak ->
      peak <> 0 ->
      np_max (ops:=real_arith)
        (map (c_abs (ops:=real_arith))
           (signal_processor_backup.signal_normalized (ops:=real_arith)
              signal peak))
      = Ok 1).
Proof.
  split; [| split].
  - intros F ops signal Hne.
    destruct (preprocess_try_nonempty signal Hne)
      as (peak & r & Hpeak & Hsmooth & Htry & _ & Hshort).
    exists peak, r.
    unfold signal_processor_backup._preprocess_signal. rewrite Htry.
    repeat split; try assumption.
  - reflexivity.
  - apply normalized_peak_is_one.
Qed.

Lemma normalization_divides_by_peak_witness :
  signal_processor_backup._preprocess_signal (ops:=binary64) short_buffer
  = map (fun z => c_div_real (ops:=binary64) z (f64 5)) short_buffer /\
  np_max (ops:=real_arith)
    (map (c_abs (ops:=real_arith))
       (signal_processor_backup.signal_normalized (ops:=real_arith)
          pythagorean_buffer (sqrt (3 * 3 + 4 * 4))))
  = Ok 1.
Proof.
  destruct normalization_divides_by_peak as (Hdiv & _ & Hone).
  split.
  - destruct (Hdiv spec_float binary64 short_buffer)
      as (peak & smoothed & Hpeak & _ & _ & Hshort).
    + discriminate.
    + vm_compute in Hpeak. injection Hpeak as <-.
      apply Hshort. simpl. lia.
  - assert (H5 : sqrt (3 * 3 + 4 * 4) = 5).
    { replace (3 * 3 + 4 * 4) with (5 * 5) by lra. apply sqrt_square. lra. }
    assert (H1 : sqrt (0 * 0 + 1 * 1) = 1).
    { replace (0 * 0 + 1 * 1) with (1 * 1) by lra. apply sqrt_square. lra. }
    apply Hone.
    + unfold pythagorean_buffer, np_max, np_maximum, c_abs.
      cbn [map fold_left fst snd f_sqrt f_add f_mul f_leb f_eqb real_arith].
      rewrite H5, H1.
      destruct (Rle_dec 1 5) as [_ | Hn]; [reflexivity | lra].
    + rewrite H5. lra.
Defined.

Local Close Scope R_scope.

(** ** Spectral analysis *)

Section spectral_analysis.
Context {F : Type} {ops : NpFloat F}.

Lemma lookup_In (l : list F) (j : nat) (x : F) : l !! j = Some x -> In x l.
Proof. intros H. apply list_elem_of_In. eapply list_elem_of_lookup_2, H. Qed.

Lemma argmax_from_first_largest (xs pre : list F) (mp : F) (mi : nat) :
  totally_ordered (pre ++ xs) ->
  pre !! mi = Some mp ->
  (forall j x, pre !! j = Some x -> f_leb x mp = true) ->
  (forall j x, (j < mi)%nat -> pre !! j = Some x -> f_leb mp x = false) ->
  is_first_largest (pre ++ xs) (argmax_from mp mi (length pre) xs).
Proof.
  revert pre mp mi. induction xs as [| x t IH]; intros pre mp mi Hord Hmi Hle Hlt.
  - rewrite app_nil_r. simpl. exists mp. auto.
  - pose proof (lookup_lt_Some _ _ _ Hmi) as Hmi_lt.
    destruct Hord as (Hnum & Htot & Htrans).
    assert (Hin_pre : forall j y, pre !! j = Some y -> In y (pre ++ x :: t)).
    { intros j y Hj. apply in_or_app. left. eapply lookup_In, Hj. }
    assert (Hin_x : In x (pre ++ x :: t)).
    { apply in_or_app. right. now left. }
    assert (Hin_mp : In mp (pre ++ x :: t)) by eauto.
    cbn [argmax_from]. rewrite (Hnum mp Hin_mp). cbn [negb].
    assert (Hord' : totally_ordered ((pre ++ [x]) ++ t)).
    { rewrite <- app_assoc. cbn [app]. repeat split; assumption. }
    replace (pre ++ x :: t) with ((pre ++ [x]) ++ t)
      by (rewrite <- app_assoc; reflexivity).
    replace (S (length pre)) with (length (pre ++ [x]))
      by (rewrite length_app; simpl; lia).
    destruct (f_leb x mp) eqn:Hx; cbn [negb].
    + apply IH.
      * exact Hord'.
      * rewrite lookup_app_l; assumption.
      * intros j y Hj. apply lookup_app_Some in Hj as [Hj | [Hge Hj]].
        -- eauto.
        -- apply list_lookup_singleton_Some in Hj as [_ <-]. exact Hx.
      * intros j y Hjlt Hj. apply lookup_app_Some in Hj as [Hj | [Hge Hj]].
        -- eauto.
        -- lia.
    + assert (Hmx : f_leb mp x = true).
      { destruct (Htot mp x Hin_mp Hin_x) as [H | H]; [exact H | congruence]. }
      replace (length pre) with (length pre + 0)%nat at 1 by lia.
      apply IH.
      * exact Hord'.
      * rewrite lookup_app_r by lia.
        replace (length pre + 0 - length pre)%nat with 0%nat by lia.
        reflexivity.
      * intros j y Hj. apply lookup_app_Some in Hj as [Hj | [Hge Hj]].
        -- apply (Htrans y mp x); eauto.
        -- apply list_lookup_singleton_Some in Hj as [_ <-].
           destruct (Htot x x Hin_x Hin_x); assumption.
      * intros j y Hjlt Hj. apply lookup_app_Some in Hj as [Hj | [Hge Hj]].
        -- destruct (f_leb x y) eqn:Hxy; [| reflexivity].
           rewrite <- Hx. symmetry. apply (Htrans x y mp); eauto.
        -- lia.
Qed.

Lemma np_argmax_first_largest (ms : list F) (k : nat) :
  np_argmax ms = Ok k -> totally_ordered ms -> is_first_largest ms k.
Proof.
  destruct ms as [| x t]; [discriminate |]. simpl. intros [= <-] Hord.
  apply (argmax_from_first_largest t [x] x 0%nat).
  - exact Hord.
  - reflexivity.
  - intros j y Hj. apply list_lookup_singleton_Some in Hj as [_ <-].
    destruct Hord as (_ & Htot & _).
    destruct (Htot x x) as [H | H]; try (now left); exact H.
  - intros j y Hj. lia.
Qed.

Lemma argmax_from_bound (xs : list F) (mp : F) (mi i : nat) :
  (mi < i)%nat -> (argmax_from mp mi i xs < i + length xs)%nat.
Proof.
  revert mp mi i. induction xs as [| x t IH]; intros mp mi i Hlt; cbn.
  - lia.
  - destruct (negb (f_eqb mp mp)); [lia |].
    destruct (negb (f_leb x mp)).
    + specialize (IH x i (S i) ltac:(lia)). lia.
    + specialize (IH mp mi (S i) ltac:(lia)). lia.
Qed.

Lemma np_argmax_bound (xs : list F) (k : nat) :
  np_argmax xs = Ok k -> (k < length xs)%nat.
Proof.
  destruct xs as [| x t]; [discriminate |]. cbn. intros [= <-].
  pose proof (argmax_from_bound t x 0 1 ltac:(lia)). lia.
Qed.

Lemma np_fftfreq_cases (n : nat) (d : F) :
  np_fftfreq n d
  = if f_eqb (f_mul (f_of_nat n) d) f_zero then Raise ZeroDivisionError
    else Ok (map (fun k => f_mul (f_of_Z (fftfreq_index (Z.of_nat n)
                                              (Z.of_nat k)))
                             (f_div f_one (f_mul (f_of_nat n) d)))
                 (seq 0 n)).
Proof.
  unfold np_fftfreq, py_div.
  destruct (f_eqb (f_mul (f_of_nat n) d) f_zero); reflexivity.
Qed.

Lemma fftfreq_index_cases (n k : nat) :
  fftfreq_index (Z.of_nat n) (Z.of_nat k)
  = if (2 * k <? n)%nat then Z.of_nat k else (Z.of_nat k - Z.of_nat n)%Z.
Proof.
  unfold fftfreq_index.
  destruct (2 * k <? n)%nat eqn:E;
    [apply Nat.ltb_lt in E | apply Nat.ltb_ge in E];
    destruct (Z.of_nat k <? (Z.of_nat n - 1) / 2 + 1)%Z eqn:E';
    [ | apply Z.ltb_ge in E' | apply Z.ltb_lt in E' | ];
    Z.div_mod_to_equations; lia.
Qed.

Variable np_fft : list (complex F) -> result (list (complex F)).
Variable np_log10 : F -> F.

Lemma analyze_try_zero_rate (xs : list (complex F)) (sample_rate : F) :
  f_eqb sample_rate f_zero = true ->
  exists e,
    signal_processor_backup.analyze_signal_try np_fft np_log10 xs sample_rate
    = Raise e.
Proof.
  intros Hz. unfold signal_processor_backup.analyze_signal_try.
  destruct (np_fft xs) as [ys | e]; cbn [mbind result_bind]; [| eauto].
  unfold py_div. rewrite Hz. cbn. eauto.
Qed.

Lemma analyze_try_returns (xs ys : list (complex F)) (sample_rate : F) :
  np_fft xs = Ok ys -> length ys = length xs -> xs <> [] ->
  f_eqb sample_rate f_zero = false ->
  f_eqb (f_mul (f_of_nat (length xs)) (f_div f_one sample_rate)) f_zero = false ->
  exists k peak,
    np_argmax (map c_abs ys) = Ok k /\ (k < length xs)%nat /\
    np_max (map c_abs ys) = Ok peak /\
    signal_processor_backup.analyze_signal_try np_fft np_log10 xs sample_rate
    = Ok {| signal_processor_backup.power :=
              np_mean (map (fun z => f_mul (c_abs z) (c_abs z)) xs);
            signal_processor_backup.amplitude := np_mean (map c_abs xs);
            signal_processor_backup.main_frequency :=
              f_mul (f_of_Z (fftfreq_index (Z.of_nat (length xs)) (Z.of_nat k)))
                    (f_div f_one
                       (f_mul (f_of_nat (length xs)) (f_div f_one sample_rate)));
            signal_processor_backup.snr_estimate :=
              f_mul (f_of_Z 10)
                (np_log10
                   (f_div (np_mean (map (fun z => f_mul (c_abs z) (c_abs z)) xs))
                      (f_add (c_var xs) (f_div f_one (f_of_Z (10 ^ 10))))));
            signal_processor_backup.spectrum_peak := peak;
            signal_processor_backup.data_length := length xs |}.
Proof.
  intros Hfft Hlen Hne Hsr Hval.
  assert (Hspec : map c_abs ys <> []).
  { intros E. apply map_eq_nil in E. subst ys. destruct xs; [congruence | discriminate]. }
  destruct (np_max_nonempty _ Hspec) as [peak Hpeak].
  destruct (map c_abs ys) as [| s0 st] eqn:Es; [congruence |].
  pose proof (np_argmax_bound (s0 :: st) _ eq_refl) as Hk.
  set (k := argmax_from s0 0 1 st) in *.
  assert (Hk' : (k < length xs)%nat).
  { rewrite <- Hlen, <- (length_map c_abs), Es. exact Hk. }
  exists k, peak. split; [reflexivity |]. split; [exact Hk' |].
  split; [exact Hpeak |].
  unfold signal_processor_backup.analyze_signal_try.
  rewrite Hfft. cbn [mbind result_bind]. rewrite Es.
  unfold py_div at 1. rewrite Hsr. cbn [mbind result_bind].
  rewrite np_fftfreq_cases, Hval. cbn [mbind result_bind np_argmax].
  fold k. unfold signal_processor_backup.getitem.
  rewrite list_lookup_fmap, lookup_seq_lt by exact Hk'.
  cbn [fmap option_fmap option_map mbind result_bind].
  rewrite Hpeak. reflexivity.
Qed.

End spectral_analysis.

Section ieee_order.

Lemma SFleb_rank (x y : spec_float) :
  SFeqb x x = true -> SFeqb y y = true ->
  (SFleb x y = true <-> rank_le (SFrank x) (SFrank y)).
Proof.
  intros Hx Hy.
  destruct x as [sx | sx | | sx mx ex]; try discriminate Hx;
    destruct y as [sy | sy | | sy my ey]; try discriminate Hy;
    try destruct sx; try destruct sy;
    unfold SFleb, SFcompare, rank_le, SFrank;
    try (split; [intros _; lia | reflexivity]);
    try (split; [discriminate | lia]).
  - change (Pcompare mx my Eq) with (Pos.compare mx my).
    destruct (Z.compare_spec ex ey), (Pos.compare_spec mx my); subst; cbn;
      split; try discriminate; try lia; try reflexivity.
  - change (Pcompare mx my Eq) with (Pos.compare mx my).
    destruct (Z.compare_spec ex ey), (Pos.compare_spec mx my); subst; cbn;
      split; try discriminate; try lia; try reflexivity.
Qed.

Lemma ieee_totally_ordered (prec emax : Z) (ms : list spec_float) :
  (forall x, In x ms -> SFeqb x x = true) ->
  totally_ordered (ops:=ieee prec emax) ms.
Proof.
  intros Hnum. split; [exact Hnum |]. cbn [f_leb ieee]. split.
  - intros x y Hx Hy.
    rewrite !SFleb_rank by auto.
    destruct (SFrank x) as [[c1 a1] b1], (SFrank y) as [[c2 a2] b2].
    unfold rank_le. lia.
  - intros x y z Hx Hy Hz.
    rewrite !SFleb_rank by auto.
    destruct (SFrank x) as [[c1 a1] b1], (SFrank y) as [[c2 a2] b2],
      (SFrank z) as [[c3 a3] b3].
    unfold rank_le. lia.
Qed.

End ieee_order.

Section spectral_analysis_exact.
Local Open Scope R_scope.

Lemma fold_left_c_add (zs : list (R * R)) (a b : R) :
  fold_left (c_add (ops:=real_arith)) zs (a, b)
  = (a + Rsum (map fst zs), b + Rsum (map snd zs)).
Proof.
  revert a b. induction zs as [| [x y] t IH]; intros a b; simpl.
  - f_equal; lra.
  - unfold c_add at 2. simpl. rewrite IH. f_equal; lra.
Qed.

Lemma c_mean_exact (zs : list (R * R)) :
  c_mean (ops:=real_arith) zs
  = (population_mean (map fst zs), population_mean (map snd zs)).
Proof.
  unfold c_mean, c_sum, c_zero, c_div_real, f_zero, f_of_nat, population_mean.
  cbn [f_of_Z f_div real_arith]. rewrite fold_left_c_add. simpl.
  rewrite !length_map, !INR_IZR_INZ. f_equal; f_equal; lra.
Qed.

Lemma Rsum_map_plus {A : Type} (f g : A -> R) (xs : list A) :
  Rsum (map (fun x => f x + g x) xs) = Rsum (map f xs) + Rsum (map g xs).
Proof.
  induction xs as [| x t IH]; simpl; [lra | rewrite IH; lra].
Qed.

(** The variance of complex samples is the variance of the real parts
    plus the variance of the imaginary parts. *)
Lemma c_var_exact (zs : list (R * R)) :
  c_var (ops:=real_arith) zs
  = population_variance (map fst zs) + population_variance (map snd zs).
Proof.
  unfold c_var. rewrite np_mean_exact, c_mean_exact.
  unfold population_variance.
  set (mr := population_mean (map fst zs)).
  set (mi := population_mean (map snd zs)).
  unfold population_mean. rewrite !length_map, !map_map.
  unfold c_sub. cbn [fst snd f_add f_sub f_mul real_arith].
  clearbody mr mi.
  rewrite (map_ext _ (fun z => (fst z - mr) ^ 2 + (snd z - mi) ^ 2))
    by (intros [x y]; simpl; ring).
  rewrite Rsum_map_plus. unfold Rdiv. apply Rmult_plus_distr_r.
Qed.

Lemma dft_length (xs : list (R * R)) : length (dft xs) = length xs.
Proof. unfold dft. now rewrite length_map, length_seq. Qed.

Lemma real_totally_ordered (ms : list R) : totally_ordered (ops:=real_arith) ms.
Proof.
  repeat split; cbn [f_eqb f_leb real_arith].
  - intros x _. destruct (Req_dec_T x x); congruence.
  - intros x y _ _. destruct (Rle_dec x y), (Rle_dec y x); auto. lra.
  - intros x y z _ _ _.
    destruct (Rle_dec x y), (Rle_dec y z), (Rle_dec x z);
      try discriminate; auto. lra.
Qed.

Lemma dft_twiddle_row (n j : nat) : dft_twiddle n j 0 = (1, 0).
Proof.
  unfold dft_twiddle.
  replace (2 * PI * INR j * INR 0 / INR n) with 0
    by (simpl; unfold Rdiv; ring).
  now rewrite cos_0, sin_0, Ropp_0.
Qed.

Lemma dft_twiddle_column (n k : nat) : dft_twiddle n 0 k = (1, 0).
Proof.
  unfold dft_twiddle.
  replace (2 * PI * INR 0 * INR k / INR n) with 0
    by (simpl; unfold Rdiv; ring).
  now rewrite cos_0, sin_0, Ropp_0.
Qed.

Lemma dft_twiddle_half : dft_twiddle 2 1 1 = (-1, 0).
Proof.
  unfold dft_twiddle.
  replace (2 * PI * INR 1 * INR 1 / INR 2) with PI by (simpl; field).
  now rewrite cos_PI, sin_PI, Ropp_0.
Qed.

(** The transform of two real samples is their sum and their
    difference. *)
Lemma dft_two_reals (a b : R) :
  dft [(a, 0); (b, 0)] = [(a + b, 0); (a - b, 0)].
Proof.
  unfold dft. cbn -[dft_twiddle].
  rewrite !dft_twiddle_row, dft_twiddle_column, dft_twiddle_half.
  unfold c_sum, c_mul, c_add, c_zero, f_zero.
  cbn [fold_left fst snd f_add f_sub f_mul f_of_Z real_arith].
  f_equal; [| f_equal]; f_equal; ring.
Qed.

Lemma magnitude_real (x : R) : 0 <= x -> magnitude (x, 0) = x.
Proof.
  intros Hx. unfold magnitude. cbn [fst snd].
  replace (x ^ 2 + 0 ^ 2) with (x * x) by ring. now apply sqrt_square.
Qed.

End spectral_analysis_exact.

Local Open Scope R_scope.

(** C6.  For every record with a non-empty one-dimensional sample buffer
    of N samples, a sample rate and an FFT bin spacing
    [N * (1 / sample_rate)] that are not 0, whatever the scalar carrier
    (IEEE binary64 included) and whatever the FFT, [analyze_signal]
    returns a result in which the power is the mean of the squared
    magnitudes, the amplitude is the mean of the magnitudes, the main
    frequency is the one [np.fft.fftfreq] gives to bin k, namely k (when
    2k < N) or k - N (otherwise) times [1 / (N * (1 / sample_rate))], k
    being the index [np.argmax] finds in the magnitudes of the spectrum,
    the SNR estimate is 10 * log10(power / (variance + 1e-10)), and the
    data length is N.  Whenever the magnitudes are numbers the carrier
    orders, k is the lowest index at which the magnitude is greatest: this
    is so for every IEEE spectrum that holds no NaN, and for every real
    one.  Read over exact arithmetic, the two means are population means,
    the variance is the population variance of the real parts plus that of
    the imaginary parts, and the frequency of the bin is
    k * sample_rate / N, respectively (k - N) * sample_rate / N. *)
Theorem analyze_signal_quantities :
  (forall (F : Type) (ops : NpFloat F)
          (np_fft : list (complex F) -> result (list (complex F)))
          (np_log10 : F -> F)
          (signal_data : signal_processor_backup.SignalData)
          (xs ys : list (complex F)),
      signal_processor_backup.data signal_data
      = signal_processor_backup.NdComplex1 xs ->
      xs <> [] ->
      np_fft xs = Ok ys -> length ys = length xs ->
      f_eqb (signal_processor_backup.sample_rate signal_data) f_zero = false ->
      f_eqb (f_mul (f_of_nat (length xs))
               (f_div f_one (signal_processor_backup.sample_rate signal_data)))
            f_zero = false ->
      exists r k,
        signal_processor_backup.analyze_signal np_fft np_log10 signal_data
        = Some r /\
        signal_processor_backup.power r
        = np_mean (map (fun z => f_mul (c_abs z) (c_abs z)) xs) /\
        signal_processor_backup.amplitude r = np_mean (map c_abs xs) /\
        np_argmax (map c_abs ys) = Ok k /\ (k < length xs)%nat /\
        (totally_ordered (map c_abs ys) ->
         is_first_largest (map c_abs ys) k) /\
        signal_processor_backup.main_frequency r
        = f_mul
            (f_of_Z (if (2 * k <? length xs)%nat then Z.of_nat k
                     else (Z.of_nat k - Z.of_nat (length xs))%Z))
            (f_div f_one
               (f_mul (f_of_nat (length xs))
                  (f_div f_one
                     (signal_processor_backup.sample_rate signal_data)))) /\
        signal_processor_backup.snr_estimate r
        = f_mul (f_of_Z 10)
            (np_log10
               (f_div (signal_processor_backup.power r)
                  (f_add (c_var xs) (f_div f_one (f_of_Z (10 ^ 10)))))) /\
        signal_processor_backup.data_length r = length xs) /\
  (forall (prec emax : Z) (ms : list spec_float) (k : nat),
      (forall x, In x ms -> SFeqb x x = true) ->
      np_argmax (ops:=ieee prec emax) ms = Ok k ->
      is_first_largest (ops:=ieee prec emax) ms k) /\
  (forall (ms : list R) (k : nat),
      np_argmax (ops:=real_arith) ms = Ok k ->
      is_first_largest (ops:=real_arith) ms k) /\
  (forall (xs : list (R * R)) (sample_rate : R) (idx : Z),
      xs <> [] -> sample_rate <> 0 ->
      np_mean (ops:=real_arith)
        (map (fun z => @f_mul _ real_arith (c_abs (ops:=real_arith) z)
                         (c_abs (ops:=real_arith) z)) xs)
      = population_mean (map (fun z => magnitude z ^ 2) xs) /\
      np_mean (ops:=real_arith) (map (c_abs (ops:=real_arith)) xs)
      = population_mean (map magnitude xs) /\
      c_var (ops:=real_arith) xs
      = population_variance (map fst xs) + population_variance (map snd xs) /\
      @f_mul _ real_arith (@f_of_Z _ real_arith idx)
        (@f_div _ real_arith (f_one (ops:=real_arith))
           (@f_mul _ real_arith (f_of_nat (ops:=real_arith) (length xs))
              (@f_div _ real_arith (f_one (ops:=real_arith)) sample_rate)))
      = IZR idx * sample_rate / INR (length xs) /\
      @f_div _ real_arith (f_one (ops:=real_arith))
        (@f_of_Z _ real_arith (10 ^ 10))
      = 1e-10).
Proof.
  split; [| split; [| split]].
  - intros F ops np_fft np_log10 signal_data xs ys Hdata Hne Hfft Hlen Hsr Hval.
    destruct (analyze_try_returns np_fft np_log10 xs ys _ Hfft Hlen Hne Hsr
                Hval) as (k & peak & Hk & Hklt & Hpeak & Htry).
    unfold signal_processor_backup.analyze_signal. rewrite Hdata, Htry.
    eexists. exists k. split; [reflexivity |].
    cbn [signal_processor_backup.power signal_processor_backup.amplitude
         signal_processor_backup.main_frequency
         signal_processor_backup.snr_estimate
         signal_processor_backup.data_length].
    rewrite fftfreq_index_cases.
    repeat split; try assumption; try reflexivity.
    intros Hord. apply np_argmax_first_largest; assumption.
  - intros prec emax ms k Hnum Hk.
    apply np_argmax_first_largest; [exact Hk |].
    apply ieee_totally_ordered. exact Hnum.
  - intros ms k Hk.
    apply np_argmax_first_largest; [exact Hk | apply real_totally_ordered].
  - intros xs sample_rate idx Hne Hsr. repeat split.
    + rewrite np_mean_exact. f_equal. apply map_ext. intros z.
      rewrite c_abs_exact. cbn. ring.
    + rewrite np_mean_exact. f_equal. apply map_ext. intros z.
      apply c_abs_exact.
    + apply c_var_exact.
    + unfold f_of_nat, f_one. cbn [f_mul f_div f_of_Z real_arith].
      rewrite <- INR_IZR_INZ.
      assert (INR (length xs) <> 0).
      { apply not_0_INR. destruct xs; [congruence | discriminate]. }
      field. auto.
Qed.

Lemma analyze_signal_quantities_witness :
  (exists r,
      signal_processor_backup.analyze_signal (ops:=real_arith)
        np_fft_exact np_log10_exact alternating_tone = Some r /\
      signal_processor_backup.main_frequency r = -1 /\
      signal_processor_backup.data_length r = 2%nat) /\
  (exists r,
      signal_processor_backup.analyze_signal (ops:=real_arith)
        np_fft_exact np_log10_exact impulse = Some r /\
      signal_processor_backup.main_frequency r = 0) /\
  is_first_largest (ops:=binary64)
    (map (c_abs (ops:=binary64)) near_tie_spectrum) 0.
Proof.
  destruct analyze_signal_quantities as (Hcode & Hieee & _).
  assert (Hrate : @f_eqb _ real_arith 2 (f_zero (ops:=real_arith)) = false).
  { cbn. destruct (Req_dec_T 2 0); [lra | reflexivity]. }
  assert (Hspacing :
            @f_eqb _ real_arith
              (@f_mul _ real_arith (f_of_nat (ops:=real_arith) 2)
                 (@f_div _ real_arith (f_one (ops:=real_arith)) 2))
              (f_zero (ops:=real_arith)) = false).
  { cbn. destruct (Req_dec_T _ _) as [E |]; [| reflexivity].
    exfalso. change (IZR (Z.of_nat 2)) with 2 in E. lra. }
  split; [| split];
    [| | apply (Hieee 53%Z 1024%Z);
         [intros x [<- | [<- | []]]; reflexivity | reflexivity]].
  - destruct (Hcode R real_arith np_fft_exact np_log10_exact alternating_tone
                [(1, 0); (-1, 0)] (dft [(1, 0); (-1, 0)]))
      as (r & k & Hr & _ & _ & _ & Hklt & Hfirst & Hfreq & _ & Hn);
      [reflexivity | discriminate | reflexivity | apply dft_length
      | exact Hrate | exact Hspacing |].
    exists r. split; [exact Hr |]. split; [| exact Hn].
    specialize (Hfirst (real_totally_ordered _)).
    rewrite dft_two_reals in Hfirst.
    assert (Hspec : map (c_abs (ops:=real_arith)) [(1 + -1, 0); (1 - -1, 0)]
                    = [0; 2]).
    { cbn [map]. rewrite !c_abs_exact.
      replace (1 + -1) with 0 by ring. replace (1 - -1) with 2 by ring.
      now rewrite !magnitude_real by lra. }
    rewrite Hspec in Hfirst. destruct Hfirst as (m & Hm & Hall & _).
    assert (Hk : k = 1%nat).
    { destruct k as [| [| k]]; [| reflexivity | simpl in Hklt; lia].
      exfalso. injection Hm as <-.
      specialize (Hall 1%nat 2 eq_refl). cbn in Hall.
      destruct (Rle_dec 2 0); [lra | discriminate Hall]. }
    subst k. rewrite Hfreq. cbn.
    change (IZR (Z.of_nat 1 - Z.of_nat 2)) with (-1).
    change (IZR (Z.of_nat 2)) with 2. field.
  - destruct (Hcode R real_arith np_fft_exact np_log10_exact impulse
                [(1, 0); (0, 0)] (dft [(1, 0); (0, 0)]))
      as (r & k & Hr & _ & _ & _ & Hklt & Hfirst & Hfreq & _ & Hn);
      [reflexivity | discriminate | reflexivity | apply dft_length
      | exact Hrate | exact Hspacing |].
    exists r. split; [exact Hr |].
    specialize (Hfirst (real_totally_ordered _)).
    rewrite dft_two_reals in Hfirst.
    assert (Hspec : map (c_abs (ops:=real_arith)) [(1 + 0, 0); (1 - 0, 0)]
                    = [1; 1]).
    { cbn [map]. rewrite !c_abs_exact.
      replace (1 + 0) with 1 by ring. replace (1 - 0) with 1 by ring.
      now rewrite !magnitude_real by lra. }
    rewrite Hspec in Hfirst. destruct Hfirst as (m & Hm & _ & Hbefore).
    assert (Hk : k = 0%nat).
    { destruct k as [| [| k]]; [reflexivity | | simpl in Hklt; lia].
      exfalso. injection Hm as <-.
      specialize (Hbefore 0%nat 1 ltac:(lia) eq_refl). cbn in Hbefore.
      destruct (Rle_dec 1 1); [discriminate Hbefore | lra]. }
    subst k. rewrite Hfreq. cbn.
    change (IZR (Z.of_nat 0)) with 0.
    change (IZR (Z.of_nat 2)) with 2. field.
Defined.

Local Close Scope R_scope.

(** ** Persistence *)

Section persistence.
Context {F : Type}.
Import signal_processor_backup.

Ltac load_steps :=
  unfold load_signal_data, load_signal_data_try, np_load, npz_getitem,
    npz_contains, allow_pickle_default;
  repeat (first
    [ match goal with
      | H : ?m !! ?k = _ |- context [?m !! ?k] => rewrite H
      end
    | match goal with
      | |- context [match ?m !! ?k with _ => _ end] =>
          destruct (m !! k) as [[] |] eqn:?
      end ];
    cbn; try reflexivity; try discriminate).

Lemma load_absent (fs : gmap string (file (F:=F))) (file_path : string) :
  fs !! file_path = None -> load_signal_data fs file_path = None.
Proof. intros H. load_steps. Qed.

Lemma load_other_file (fs : gmap string (file (F:=F))) (file_path : string) :
  fs !! file_path = Some OtherFile -> load_signal_data fs file_path = None.
Proof. intros H. load_steps. Qed.

Lemma load_missing_member (fs : gmap string (file (F:=F))) (file_path : string)
  (members : gmap string ndarray) :
  fs !! file_path = Some (NpzFile members) ->
  members !! "data"%string = None \/
  members !! "sample_rate"%string = None \/
  members !! "center_freq"%string = None \/
  members !! "timestamp"%string = None ->
  load_signal_data fs file_path = None.
Proof.
  intros Hfs [H | [H | [H | H]]]; load_steps.
Qed.

Lemma load_malformed_member (fs : gmap string (file (F:=F))) (file_path : string)
  (members : gmap string ndarray) (a : ndarray) (e : exn) :
  fs !! file_path = Some (NpzFile members) ->
  members !! "sample_rate"%string = Some a \/
  members !! "center_freq"%string = Some a \/
  members !! "timestamp"%string = Some a ->
  py_float a = Raise e ->
  load_signal_data fs file_path = None.
Proof.
  intros Hfs [H | [H | H]] Ha; destruct a; try discriminate; load_steps.
Qed.

Lemma load_pickled_metadata (fs : gmap string (file (F:=F))) (file_path : string)
  (members : gmap string ndarray) (d : gmap string scalar) :
  fs !! file_path = Some (NpzFile members) ->
  members !! "metadata"%string = Some (NdObject0 d) ->
  load_signal_data fs file_path = None.
Proof.
  intros Hfs H. load_steps.
Qed.

Lemma load_without_metadata (fs : gmap string (file (F:=F))) (file_path : string)
  (members : gmap string ndarray) (xs : list (complex F)) (sr cf ts : F) :
  fs !! file_path = Some (NpzFile members) ->
  members !! "data"%string = Some (NdComplex1 xs) ->
  members !! "sample_rate"%string = Some (NdFloat0 sr) ->
  members !! "center_freq"%string = Some (NdFloat0 cf) ->
  members !! "timestamp"%string = Some (NdFloat0 ts) ->
  members !! "metadata"%string = None ->
  load_signal_data fs file_path
  = Some {| data := NdComplex1 xs; sample_rate := sr; center_freq := cf;
            timestamp := ts; metadata := PyDict ∅ |}.
Proof.
  intros Hfs Hd Hs Hc Ht Hm. load_steps.
Qed.

(** The members [save_signal_data] writes. *)
Lemma saved_members (a b c d e : ndarray (F:=F)) :
  let members : gmap string ndarray :=
    list_to_map [("data"%string, a); ("sample_rate"%string, b);
                 ("center_freq"%string, c); ("timestamp"%string, d);
                 ("metadata"%string, e)] in
  members !! "data"%string = Some a /\
  members !! "sample_rate"%string = Some b /\
  members !! "center_freq"%string = Some c /\
  members !! "timestamp"%string = Some d /\
  members !! "metadata"%string = Some e.
Proof. repeat split. Qed.

Lemma save_writes_npz_name (fs : gmap string (file (F:=F)))
  (signal_data : SignalData) (file_path : string) :
  snd (save_signal_data fs signal_data file_path) !! npz_name file_path
  = Some (NpzFile (list_to_map
      [("data"%string, data signal_data);
       ("sample_rate"%string, NdFloat0 (sample_rate signal_data));
       ("center_freq"%string, NdFloat0 (center_freq signal_data));
       ("timestamp"%string, NdFloat0 (timestamp signal_data));
       ("metadata"%string, np_asanyarray (metadata signal_data))])).
Proof.
  unfold save_signal_data, np_savez_compressed. simpl.
  apply lookup_insert_eq.
Qed.

Lemma save_leaves_other_paths (fs : gmap string (file (F:=F)))
  (signal_data : SignalData) (file_path other : string) :
  other <> npz_name file_path ->
  snd (save_signal_data fs signal_data file_path) !! other = fs !! other.
Proof.
  intros Hne. unfold save_signal_data, np_savez_compressed. simpl.
  apply lookup_insert_ne. congruence.
Qed.

Lemma load_saved_dict (fs : gmap string (file (F:=F)))
  (signal_data : SignalData) (file_path : string) (d : gmap string scalar) :
  metadata signal_data = PyDict d ->
  load_signal_data (snd (save_signal_data fs signal_data file_path))
    (npz_name file_path) = None.
Proof.
  intros Hmeta.
  eapply load_pickled_metadata; [apply save_writes_npz_name |].
  rewrite Hmeta. apply saved_members.
Qed.

End persistence.

(** C1.  The code does not round-trip.  [save_signal_data] stores the
    metadata dict as a pickled object array; [load_signal_data] opens the
    archive with [np.load]'s default [allow_pickle=False], so reading the
    metadata member raises and the handler returns None.  This holds for
    every record whose metadata is a dict, every store and every path, when
    the file that was written is read back; and when the given path lacks
    the ".npz" extension the file is written under another name, so that
    loading the given path of a fresh location fails as well. *)
Theorem load_after_save_returns_None :
  forall (F : Type) (fs : gmap string (signal_processor_backup.file (F:=F)))
         (signal_data : signal_processor_backup.SignalData)
         (file_path : string)
         (d : gmap string signal_processor_backup.scalar),
    signal_processor_backup.metadata signal_data
    = signal_processor_backup.PyDict d ->
    fst (signal_processor_backup.save_signal_data fs signal_data file_path)
    = true /\
    signal_processor_backup.load_signal_data
      (snd (signal_processor_backup.save_signal_data fs signal_data file_path))
      (signal_processor_backup.npz_name file_path) = None /\
    (fs !! file_path = None ->
     signal_processor_backup.load_signal_data
       (snd (signal_processor_backup.save_signal_data fs signal_data file_path))
       file_path = None).
Proof.
  intros F fs signal_data file_path d Hmeta.
  split; [reflexivity |]. split.
  - eapply load_saved_dict; eassumption.
  - intros Hfresh.
    destruct (decide (file_path = signal_processor_backup.npz_name file_path))
      as [E | E].
    + rewrite E at 2. eapply load_saved_dict; eassumption.
    + apply load_absent. rewrite save_leaves_other_paths; assumption.
Qed.

Lemma load_after_save_returns_None_witness :
  signal_processor_backup.load_signal_data
    (snd (signal_processor_backup.save_signal_data ∅ sample_record sample_path))
    sample_path = None.
Proof.
  destruct (load_after_save_returns_None spec_float ∅ sample_record sample_path
              _ eq_refl) as (_ & _ & H).
  apply H. reflexivity.
Defined.

(** C8, as stated, fails: a container from which the metadata field is
    missing does not fail as corrupt, it loads with an empty metadata dict
    substituted; and an absent container and a container without its data
    field produce the same failure value, with nothing telling "not found"
    from "corrupt". *)
Lemma load_tolerates_missing_metadata :
  signal_processor_backup.load_signal_data archive_without_metadata "capture.npz"
  = Some {| signal_processor_backup.data :=
              signal_processor_backup.NdComplex1 [(f64 3, f64 4)];
            signal_processor_backup.sample_rate := f64 2400000;
            signal_processor_backup.center_freq := f64 98700000;
            signal_processor_backup.timestamp := f64 1700000000;
            signal_processor_backup.metadata :=
              signal_processor_backup.PyDict ∅ |} /\
  signal_processor_backup.load_signal_data archive_without_data "absent.npz"
  = signal_processor_backup.load_signal_data archive_without_data "capture.npz".
Proof.
  split; reflexivity.
Qed.

(** C8 (amended).  [load_signal_data] reports every failure by the single
    value None and lets no exception escape: it returns None when the
    container is absent, when the file is not an archive, when the data,
    sample_rate, center_freq or timestamp member is missing, and when one
    of the three scalar members does not convert to a float.  A container
    lacking only the metadata member loads successfully with an empty
    metadata dict.  In particular a nonexistent path yields None, never a
    record. *)
Theorem load_signal_data_failures :
  forall (F : Type) (fs : gmap string (signal_processor_backup.file (F:=F)))
         (file_path : string),
    (fs !! file_path = None ->
     signal_processor_backup.load_signal_data fs file_path = None) /\
    (fs !! file_path = Some signal_processor_backup.OtherFile ->
     signal_processor_backup.load_signal_data fs file_path = None) /\
    (forall members : gmap string signal_processor_backup.ndarray,
        fs !! file_path = Some (signal_processor_backup.NpzFile members) ->
        (members !! "data"%string = None \/
         members !! "sample_rate"%string = None \/
         members !! "center_freq"%string = None \/
         members !! "timestamp"%string = None ->
         signal_processor_backup.load_signal_data fs file_path = None) /\
        (forall a e,
            members !! "sample_rate"%string = Some a \/
            members !! "center_freq"%string = Some a \/
            members !! "timestamp"%string = Some a ->
            signal_processor_backup.py_float a = Raise e ->
            signal_processor_backup.load_signal_data fs file_path = None) /\
        (forall xs sr cf ts,
            members !! "data"%string
            = Some (signal_processor_backup.NdComplex1 xs) ->
            members !! "sample_rate"%string
            = Some (signal_processor_backup.NdFloat0 sr) ->
            members !! "center_freq"%string
            = Some (signal_processor_backup.NdFloat0 cf) ->
            members !! "timestamp"%string
            = Some (signal_processor_backup.NdFloat0 ts) ->
            members !! "metadata"%string = None ->
            signal_processor_backup.load_signal_data fs file_path
            = Some {| signal_processor_backup.data :=
                        signal_processor_backup.NdComplex1 xs;
                      signal_processor_backup.sample_rate := sr;
                      signal_processor_backup.center_freq := cf;
                      signal_processor_backup.timestamp := ts;
                      signal_processor_backup.metadata :=
                        signal_processor_backup.PyDict ∅ |})).
Proof.
  intros F fs file_path. split; [| split].
  - apply load_absent.
  - apply load_other_file.
  - intros members Hfs. repeat split.
    + eapply load_missing_member; eassumption.
    + intros a e. eapply load_malformed_member; eassumption.
    + intros xs sr cf ts. eapply load_without_metadata; eassumption.
Qed.

Lemma load_signal_data_failures_witness :
  signal_processor_backup.load_signal_data archive_without_data "absent.npz"
  = None /\
  signal_processor_backup.load_signal_data archive_without_data "capture.npz"
  = None /\
  signal_processor_backup.load_signal_data archive_with_array_rate "capture.npz"
  = None /\
  exists r,
    signal_processor_backup.load_signal_data archive_without_metadata
      "capture.npz" = Some r /\
    signal_processor_backup.metadata r = signal_processor_backup.PyDict ∅.
Proof.
  split; [| split; [| split]].
  - destruct (load_signal_data_failures spec_float archive_without_data
                "absent.npz") as (Habsent & _).
    apply Habsent. reflexivity.
  - destruct (load_signal_data_failures spec_float archive_without_data
                "capture.npz") as (_ & _ & H).
    destruct (H _ eq_refl) as (Hmissing & _).
    apply Hmissing. left. reflexivity.
  - destruct (load_signal_data_failures spec_float archive_with_array_rate
                "capture.npz") as (_ & _ & H).
    destruct (H _ eq_refl) as (_ & Hmalformed & _).
    apply (Hmalformed
             (signal_processor_backup.NdComplex1
                [(f64 2400000, f64 0); (f64 2400000, f64 0)])
             TypeError).
    + left. reflexivity.
    + reflexivity.
  - destruct (load_signal_data_failures spec_float archive_without_metadata
                "capture.npz") as (_ & _ & H).
    destruct (H _ eq_refl) as (_ & _ & Hloads).
    eexists. split.
    + apply (Hloads [(f64 3, f64 4)] (f64 2400000) (f64 98700000)
               (f64 1700000000)); reflexivity.
    + reflexivity.
Defined.

(** ** Further properties of the configuration and IQ code *)

(** ** Configuration files *)

Section configuration.
Context {F : Type} {ops : NpFloat F}.

(** On a dict the membership tests cannot raise. *)
Lemma first_missing_dict (keys : list string) (d : gmap string (json F)) :
  exists r, first_missing keys (JObj d) = Ok r /\
            (r = None <-> forall k, In k keys -> is_Some (d !! k)).
Proof.
  induction keys as [| key rest IH].
  - exists None. split; [reflexivity |]. split; [intros _ k [] | reflexivity].
  - cbn. destruct (d !! key) as [v |] eqn:E.
    + destruct IH as (r & Hr & Hiff). exists r. split; [exact Hr |].
      rewrite Hiff. split.
      * intros H k [<- | Hk]; [rewrite E; eauto | auto].
      * intros H k Hk. apply H. now right.
    + exists (Some key). split; [reflexivity |]. split; [discriminate |].
      intros H. specialize (H key (or_introl eq_refl)).
      rewrite E in H. destruct H as [? H]. discriminate.
Qed.

(** Only a dict passes the validation: the two lookups need one. *)
Lemma validate_true_dict (c : json F) :
  config_handler._validate_config c = Ok true -> exists d, c = JObj d.
Proof.
  unfold config_handler._validate_config, required_keys.
  destruct c; try (cbn; discriminate); [| | eauto].
  - cbn. repeat (match goal with
                 | |- context [str_contains ?a ?b] => destruct (str_contains a b)
                 end; cbn; try discriminate).
  - cbn. repeat (match goal with
                 | |- context [existsb ?f ?l] => destruct (existsb f l)
                 end; cbn; try discriminate).
Qed.

Lemma validate_dict (d : gmap string (json F)) :
  exists b,
    config_handler._validate_config (JObj d) = Ok b /\
    (b = true <->
     (forall k, In k required_keys -> is_Some (d !! k)) /\
     exists cf sr,
       d !! "center_freq"%string = Some cf /\
       d !! "sample_rate"%string = Some sr /\
       config_handler.not_positive_number cf = false /\
       config_handler.not_positive_number sr = false).
Proof.
  unfold config_handler._validate_config.
  destruct (first_missing_dict required_keys d) as (r & Hr & Hiff).
  rewrite Hr. cbn. destruct r as [k |].
  - exists false. split; [reflexivity |]. split; [discriminate |].
    intros [Hall _]. apply Hiff in Hall. discriminate.
  - assert (Hall : forall k, In k required_keys -> is_Some (d !! k))
      by (now apply Hiff).
    destruct (Hall "center_freq"%string) as [cf Hcf]; [cbn; tauto |].
    destruct (Hall "sample_rate"%string) as [sr Hsr]; [cbn; tauto |].
    rewrite Hcf. cbn.
    destruct (config_handler.not_positive_number cf) eqn:Ecf.
    + exists false. split; [reflexivity |]. split; [discriminate |].
      intros (_ & cf' & sr' & Hcf' & _ & Hn & _). congruence.
    + rewrite Hsr. cbn.
      destruct (config_handler.not_positive_number sr) eqn:Esr.
      * exists false. split; [reflexivity |]. split; [discriminate |].
        intros (_ & cf' & sr' & _ & Hsr' & _ & Hn). congruence.
      * exists true. split; [reflexivity |]. split; [| reflexivity].
        intros _. split; [exact Hall |]. exists cf, sr. auto.
Qed.

End configuration.

Section configuration2.
Context {F : Type} {ops : NpFloat F}.

Local Opaque config_handler._validate_config.

Lemma save_config_cases (self : config_handler.ConfigHandler)
  (config_dict : option (json F)) (file_path : option string)
  (writable : string -> bool) (fs : gmap string (text_file F)) :
  let target := config_handler.or_default_path file_path
                  (config_handler.config_file self) in
  let saved := config_handler.or_default_config config_dict
                 (config_handler.config self) in
  (config_handler._validate_config saved = Ok true /\
   opens_for_writing writable target = true /\
   config_handler.save_config self config_dict file_path writable fs
   = (true, <[target := JsonText saved]> fs)) \/
  ((config_handler._validate_config saved <> Ok true \/
    opens_for_writing writable target = false) /\
   config_handler.save_config self config_dict file_path writable fs
   = (false, fs)).
Proof.
  cbn zeta.
  unfold config_handler.save_config, config_handler.save_config_try.
  set (target := config_handler.or_default_path _ _).
  set (saved := config_handler.or_default_config _ _).
  destruct (config_handler._validate_config saved) as [[|] | e] eqn:Ev; cbn.
  - unfold write_json. destruct (opens_for_writing writable target) eqn:Et; cbn.
    + left. repeat split.
    + right. split; [now right | reflexivity].
  - right. split; [left; discriminate | reflexivity].
  - right. split; [left; discriminate | reflexivity].
Qed.

Lemma load_config_cases (self : config_handler.ConfigHandler)
  (file_path : option string) (fs : gmap string (text_file F)) :
  let target := config_handler.or_default_path file_path
                  (config_handler.config_file self) in
  (exists c,
      read_json fs target = Ok c /\
      config_handler._validate_config c = Ok true /\
      config_handler.load_config self file_path fs
      = (c, {| config_handler.config_file := config_handler.config_file self;
               config_handler.config := c |})) \/
  ((forall c, read_json fs target = Ok c ->
              config_handler._validate_config c <> Ok true) /\
   config_handler.load_config self file_path fs
   = (config_handler.DEFAULT_RADIO_CONFIG, self)).
Proof.
  cbn zeta.
  unfold config_handler.load_config, config_handler.load_config_try.
  set (target := config_handler.or_default_path _ _).
  unfold path_exists, read_json.
  destruct (String.eqb target "") eqn:Et; cbn.
  { right. split; [discriminate | reflexivity]. }
  destruct (fs !! target) as [[doc |] |] eqn:Ef;
    cbn.
  - destruct (config_handler._validate_config doc) as [[|] | e] eqn:Ev; cbn.
    + left. exists doc. split; [reflexivity | split; [exact Ev | reflexivity]].
    + right. split; [| reflexivity]. intros c Hc Hv. congruence.
    + right. split; [| reflexivity]. intros c Hc Hv. congruence.
  - right. split; [discriminate | reflexivity].
  - right. split; [discriminate | reflexivity].
Qed.

End configuration2.

Section configuration3.
Context {F : Type} {ops : NpFloat F}.

Lemma not_positive_number_false (v : json F) :
  config_handler.not_positive_number v = false <->
  is_int_or_float v = true /\ number_le_zero v = false.
Proof.
  unfold config_handler.not_positive_number.
  rewrite orb_false_iff, negb_false_iff. reflexivity.
Qed.

(** The loop of [update_config] on a dict: it cannot raise, it changes
    exactly the keys the dict already has. *)
Lemma update_config_loop_dict (kwargs : list (string * json F))
  (d : gmap string (json F)) :
  NoDup kwargs.*1 ->
  exists d',
    config_handler.update_config_loop kwargs (JObj d) = Ok (JObj d') /\
    forall k,
      d' !! k = match d !! k with
                | Some old =>
                    Some (default old
                            ((list_to_map kwargs : gmap string (json F)) !! k))
                | None => None
                end.
Proof.
  revert d. induction kwargs as [| [key value] rest IH]; intros d Hnd.
  - exists d. split; [reflexivity |]. intros k. cbn.
    rewrite lookup_empty. now destruct (d !! k).
  - cbn in Hnd. apply NoDup_cons in Hnd as [Hkey Hnd].
    cbn [config_handler.update_config_loop py_in mbind result_bind].
    destruct (d !! key) as [old |] eqn:Ekey.
    + cbn [py_setitem mbind result_bind].
      destruct (IH (<[key := value]> d) Hnd) as (d' & Hd' & Hlook).
      exists d'. split; [exact Hd' |]. intros k. rewrite Hlook.
      cbn [list_to_map foldr uncurry].
      destruct (decide (key = k)) as [<- | Hne].
      * rewrite !lookup_insert_eq, Ekey.
        rewrite (not_elem_of_list_to_map_1 _ _ Hkey). reflexivity.
      * rewrite !lookup_insert_ne by assumption. reflexivity.
    + destruct (IH d Hnd) as (d' & Hd' & Hlook).
      exists d'. split; [exact Hd' |]. intros k. rewrite Hlook.
      cbn [list_to_map foldr uncurry].
      destruct (decide (key = k)) as [<- | Hne].
      * rewrite Ekey. reflexivity.
      * rewrite lookup_insert_ne by assumption. reflexivity.
Qed.

Lemma validate_accepts (c : json F) :
  config_handler._validate_config c = Ok true <->
  exists d cf sr,
    c = JObj d /\
    (forall k, In k required_keys -> is_Some (d !! k)) /\
    d !! "center_freq"%string = Some cf /\
    d !! "sample_rate"%string = Some sr /\
    (is_int_or_float cf = true /\ number_le_zero cf = false) /\
    (is_int_or_float sr = true /\ number_le_zero sr = false).
Proof.
  split.
  - intros Hv. destruct (validate_true_dict c Hv) as [d ->].
    destruct (validate_dict d) as (b & Hb & Hiff).
    assert (b = true) by congruence. subst b.
    destruct Hiff as [Hiff _].
    destruct (Hiff eq_refl) as (Hall & cf & sr & Hcf & Hsr & Hncf & Hnsr).
    apply not_positive_number_false in Hncf, Hnsr.
    exists d, cf, sr. repeat split; tauto || assumption.
  - intros (d & cf & sr & -> & Hall & Hcf & Hsr & Hncf & Hnsr).
    destruct (validate_dict d) as (b & Hb & Hiff).
    rewrite Hb. f_equal. apply Hiff. split; [exact Hall |].
    exists cf, sr. rewrite !not_positive_number_false. tauto.
Qed.

Lemma update_config_dict (self : config_handler.ConfigHandler)
  (d : gmap string (json F)) (kwargs : list (string * json F)) :
  config_handler.config self = JObj d ->
  NoDup kwargs.*1 ->
  exists d',
    config_handler.update_config self kwargs
    = (true, {| config_handler.config_file := config_handler.config_file self;
                config_handler.config := JObj d' |}) /\
    forall k,
      d' !! k = match d !! k with
                | Some old =>
                    Some (default old
                            ((list_to_map kwargs : gmap string (json F)) !! k))
                | None => None
                end.
Proof.
  intros Hcfg Hnd.
  destruct (update_config_loop_dict kwargs d Hnd) as (d' & Hloop & Hlook).
  exists d'. unfold config_handler.update_config. rewrite Hcfg, Hloop.
  split; [reflexivity | exact Hlook].
Qed.

End configuration3.

(** X1.  [_validate_config] returns a plain boolean on every dict, and it
    accepts a value exactly when that value is a dict holding the four
    required keys whose [center_freq] and [sample_rate] are numbers (int,
    bool or float) that are not [<= 0].  The values of [gain] and
    [device_id] are never looked at, and a NaN frequency is accepted. *)
Theorem validate_config_acceptance :
  forall (F : Type) (ops : NpFloat F),
    (forall d : gmap string (json F),
        exists b, config_handler._validate_config (JObj d) = Ok b) /\
    (forall c : json F,
        config_handler._validate_config c = Ok true <->
        exists d cf sr,
          c = JObj d /\
          (forall k, In k required_keys -> is_Some (d !! k)) /\
          d !! "center_freq"%string = Some cf /\
          d !! "sample_rate"%string = Some sr /\
          (is_int_or_float cf = true /\ number_le_zero cf = false) /\
          (is_int_or_float sr = true /\ number_le_zero sr = false)).
Proof.
  intros F ops. split.
  - intros d. destruct (validate_dict d) as (b & Hb & _). eauto.
  - apply validate_accepts.
Qed.

Lemma validate_config_acceptance_witness :
  config_handler._validate_config (ops:=binary64) nan_frequency_config = Ok true.
Proof.
  destruct (validate_config_acceptance spec_float binary64) as [_ H].
  apply H.
  exists (list_to_map
    [("center_freq"%string, JFloat S754_nan);
     ("sample_rate"%string, JBool true);
     ("gain"%string, JStr "auto");
     ("device_id"%string, JStr "rtl-sdr-01")]), (JFloat S754_nan), (JBool true).
  split; [reflexivity |]. split.
  - intros k [<- | [<- | [<- | [<- | []]]]]; vm_compute; eauto.
  - repeat split.
Defined.

(** X2.  [ConfigHandler.load_config] never raises and always returns a
    configuration that passes [_validate_config]: either the default
    configuration, with the handler left as it was, or the document read
    from the target file, which then also becomes the handler's
    configuration.  The handler's file name is never changed. *)
Theorem load_config_returns_valid_config :
  forall (self : config_handler.ConfigHandler (F:=spec_float))
         (file_path : option string)
         (fs : gmap string (text_file spec_float)),
    let target := config_handler.or_default_path file_path
                    (config_handler.config_file self) in
    let r := config_handler.load_config (ops:=binary64) self file_path fs in
    config_handler._validate_config (ops:=binary64) (fst r) = Ok true /\
    config_handler.config_file (snd r) = config_handler.config_file self /\
    ((fst r = config_handler.DEFAULT_RADIO_CONFIG (ops:=binary64) /\
      snd r = self) \/
     (read_json fs target = Ok (fst r) /\
      config_handler.config (snd r) = fst r)).
Proof.
  intros self file_path fs target r.
  destruct (load_config_cases (ops:=binary64) self file_path fs)
    as [(c & Hread & Hvalid & Hload) | (_ & Hload)];
    unfold r; rewrite Hload; cbn [fst snd].
  - split; [exact Hvalid |]. split; [reflexivity |]. right. split; [exact Hread | reflexivity].
  - split; [vm_compute; reflexivity |]. split; [reflexivity |]. left. split; reflexivity.
Qed.

(** X3.  Whenever [ConfigHandler.save_config] reports success,
    [load_config] with the same path argument on the resulting files
    returns exactly the configuration that was saved and installs it as
    the handler's configuration. *)
Theorem save_then_load_config_round_trip :
  forall (F : Type) (ops : NpFloat F) (self : config_handler.ConfigHandler)
         (config_dict : option (json F)) (file_path : option string)
         (writable : string -> bool)
         (fs fs' : gmap string (text_file F)),
    config_handler.save_config self config_dict file_path writable fs
    = (true, fs') ->
    let saved := config_handler.or_default_config config_dict
                   (config_handler.config self) in
    config_handler.load_config self file_path fs'
    = (saved, {| config_handler.config_file := config_handler.config_file self;
                 config_handler.config := saved |}).
Proof.
  intros F ops self config_dict file_path writable fs fs' Hsave saved.
  destruct (save_config_cases self config_dict file_path writable fs)
    as [(Hvalid & Hpath & Hs) | (_ & Hs)]; rewrite Hs in Hsave;
    [| discriminate].
  injection Hsave as <-. fold saved in Hvalid.
  apply andb_true_iff in Hpath as [Hpath _].
  apply negb_true_iff in Hpath.
  destruct (load_config_cases self file_path
              (<[config_handler.or_default_path file_path
                   (config_handler.config_file self) := JsonText saved]> fs))
    as [(c & Hread & _ & Hload) | (Hno & _)].
  - unfold read_json in Hread. rewrite Hpath, lookup_insert_eq in Hread.
    injection Hread as <-. exact Hload.
  - exfalso. apply (Hno saved); [| exact Hvalid].
    unfold read_json. now rewrite Hpath, lookup_insert_eq.
Qed.

Lemma save_then_load_config_round_trip_witness :
  config_handler.load_config (ops:=binary64) default_handler None
    (snd (config_handler.save_config (ops:=binary64) default_handler
            (Some nan_frequency_config) None flat_directory ∅))
  = (nan_frequency_config,
     {| config_handler.config_file := "radio_config.json";
        config_handler.config := nan_frequency_config |}).
Proof.
  apply (save_then_load_config_round_trip spec_float binary64 default_handler
           (Some nan_frequency_config) None flat_directory ∅).
  reflexivity.
Defined.



(** X5.  On a handler whose configuration is a dict, [update_config]
    returns True for every set of keyword arguments and never adds or
    removes a key: a key already present takes the value given for it (or
    keeps its own when no keyword names it) and keywords naming unknown
    keys are dropped. *)
Theorem update_config_changes_known_keys_only :
  forall (F : Type) (ops : NpFloat F) (self : config_handler.ConfigHandler)
         (d : gmap string (json F)) (kwargs : list (string * json F)),
    config_handler.config self = JObj d ->
    NoDup kwargs.*1 ->
    exists d',
      config_handler.update_config self kwargs
      = (true, {| config_handler.config_file := config_handler.config_file self;
                  config_handler.config := JObj d' |}) /\
      (forall k, is_Some (d' !! k) <-> is_Some (d !! k)) /\
      (forall k, d !! k = None -> d' !! k = None) /\
      (forall k old,
          d !! k = Some old ->
          d' !! k
          = Some (default old
                    ((list_to_map kwargs : gmap string (json F)) !! k))).
Proof.
  intros F ops self d kwargs Hcfg Hnd.
  destruct (update_config_dict self d kwargs Hcfg Hnd) as (d' & Hup & Hlook).
  exists d'. split; [exact Hup |]. repeat split.
  - rewrite Hlook. destruct (d !! k); [eauto | intros [? ?]; discriminate].
  - rewrite Hlook. destruct (d !! k); [eauto | intros [? ?]; discriminate].
  - intros k Hk. rewrite Hlook, Hk. reflexivity.
  - intros k old Hk. rewrite Hlook, Hk. reflexivity.
Qed.

Lemma update_config_changes_known_keys_only_witness :
  exists d',
    config_handler.update_config default_handler
      [("gain"%string, JStr "40"); ("squelch"%string, JInt 3)]
    = (true, {| config_handler.config_file := "radio_config.json";
                config_handler.config := JObj d' |}) /\
    d' !! "gain"%string = Some (JStr "40") /\
    d' !! "squelch"%string = None.
Proof.
  destruct (update_config_changes_known_keys_only spec_float binary64
              default_handler _
              [("gain"%string, JStr "40"); ("squelch"%string, JInt 3)]
              eq_refl) as (d' & Hup & _ & Hnone & Hsome).
  - cbn. repeat (apply NoDup_cons; split;
      [rewrite ?elem_of_cons, elem_of_nil; intuition discriminate |]).
    apply NoDup_nil_2.
  - exists d'. split; [exact Hup |]. split.
    + rewrite (Hsome "gain"%string (JStr "auto")); reflexivity.
    + apply (Hnone "squelch"%string). reflexivity.
Defined.

(** X6.  [update_config] does not validate: storing under [center_freq]
    or [sample_rate] a value that is not a positive number is reported as
    a success, and a following [save_config] of the handler's
    configuration then fails and writes nothing. *)
Theorem update_config_can_invalidate_the_configuration :
  forall (F : Type) (ops : NpFloat F) (self : config_handler.ConfigHandler)
         (d : gmap string (json F)) (kwargs : list (string * json F))
         (key : string) (v : json F) (file_path : option string)
         (writable : string -> bool) (fs : gmap string (text_file F)),
    config_handler.config self = JObj d ->
    NoDup kwargs.*1 ->
    is_Some (d !! key) ->
    (key, v) ∈ kwargs ->
    key = "center_freq"%string \/ key = "sample_rate"%string ->
    config_handler.not_positive_number v = true ->
    fst (config_handler.update_config self kwargs) = true /\
    config_handler.save_config
      (snd (config_handler.update_config self kwargs)) None file_path writable
      fs
    = (false, fs).
Proof.
  intros F ops self d kwargs key v file_path writable fs Hcfg Hnd [old Hold]
    Hin Hkey Hbad.
  destruct (update_config_dict self d kwargs Hcfg Hnd) as (d' & Hup & Hlook).
  rewrite Hup. cbn [fst snd]. split; [reflexivity |].
  assert (Hv : d' !! key = Some v).
  { rewrite Hlook, Hold.
    rewrite (elem_of_list_to_map_1 kwargs key v Hnd Hin). reflexivity. }
  destruct (save_config_cases
              {| config_handler.config_file := config_handler.config_file self;
                 config_handler.config := JObj d' |} None file_path writable
              fs)
    as [(Hvalid & _) | (_ & Hs)]; [| exact Hs].
  exfalso.
  cbn [config_handler.or_default_config config_handler.config] in Hvalid.
  apply validate_accepts in Hvalid
    as (d0 & cf & sr & [= <-] & _ & Hcf & Hsr & Hncf & Hnsr).
  apply not_positive_number_false in Hncf, Hnsr.
  destruct Hkey as [-> | ->]; congruence.
Qed.

Lemma update_config_can_invalidate_the_configuration_witness :
  config_handler.save_config (ops:=binary64)
    (snd (config_handler.update_config default_handler
            [("center_freq"%string, JInt (-1))]))
    None None flat_directory ∅
  = (false, ∅).
Proof.
  apply (update_config_can_invalidate_the_configuration spec_float binary64
           default_handler _ [("center_freq"%string, JInt (-1))]
           "center_freq" (JInt (-1)) None flat_directory ∅ eq_refl).
  - cbn. repeat (apply NoDup_cons; split;
      [rewrite ?elem_of_cons, elem_of_nil; intuition discriminate |]).
    apply NoDup_nil_2.
  - vm_compute. eauto.
  - set_solver.
  - now left.
  - reflexivity.
Defined.

Section config_files.
Context {F : Type} {ops : NpFloat F}.

Lemma missing_keys_dict (keys : list string) (d : gmap string (json F)) :
  exists l, radio_manager.missing_keys keys (JObj d) = Ok l /\
            (l = [] <-> forall k, In k keys -> is_Some (d !! k)).
Proof.
  induction keys as [| key rest IH].
  - exists []. split; [reflexivity |]. split; [intros _ k [] | reflexivity].
  - destruct IH as (l & Hl & Hiff). cbn. rewrite Hl. cbn.
    destruct (d !! key) as [v |] eqn:E.
    + exists l. split; [reflexivity |]. rewrite Hiff. split.
      * intros H k [<- | Hk]; [rewrite E; eauto | auto].
      * intros H k Hk. apply H. now right.
    + exists (key :: l). split; [reflexivity |]. split; [discriminate |].
      intros H. specialize (H key (or_introl eq_refl)).
      rewrite E in H. destruct H as [? H]. discriminate.
Qed.

(** The two ways of looking for a missing key agree, raising included. *)
Lemma first_missing_missing_keys (keys : list string) (c : json F) :
  match first_missing keys c, radio_manager.missing_keys keys c with
  | Ok None, Ok [] => True
  | Ok (Some _), Ok (_ :: _) => True
  | Raise e, Raise e' => e = e'
  | _, _ => False
  end.
Proof.
  induction keys as [| key rest IH]; [exact I |].
  cbn. destruct (py_in key c) as [[|] | e] eqn:E; cbn.
  - destruct (first_missing rest c) as [[k |] | e1],
      (radio_manager.missing_keys rest c) as [[| k' l] | e2];
      cbn; try contradiction; auto.
  - destruct (radio_manager.missing_keys rest c) as [l | e2] eqn:E2; cbn.
    + exact I.
    + (* the membership test raised on a later key although it answered
         on this one: impossible *)
      exfalso. clear IH. revert E2. clear -E.
      assert (Hok : forall k, exists b, py_in k c = Ok b).
      { intros k. destruct c; try discriminate; cbn; eauto. }
      induction rest as [| k rest IH]; [discriminate |].
      cbn. destruct (Hok k) as [b ->]. cbn.
      destruct (radio_manager.missing_keys rest c); [discriminate |].
      intros [= <-]. now apply IH.
  - reflexivity.
Qed.

Lemma radio_manager_load_cases (fs : gmap string (text_file F)) (path : string) :
  radio_manager.load_config fs path
  = if String.eqb path "" then Ok None
    else match fs !! path with
         | None => Ok None
         | Some InvalidJson => Ok None
         | Some (JsonText c) =>
             match radio_manager.missing_keys required_keys c with
             | Ok [] => Ok (Some c)
             | Ok (_ :: _) => Ok None
             | Raise FileNotFoundError => Ok None
             | Raise ValueError => Ok None
             | Raise KeyError => Ok None
             | Raise e => Raise e
             end
         end.
Proof.
  unfold radio_manager.load_config, radio_manager.load_config_try, read_json.
  destruct (String.eqb path ""); [reflexivity |].
  destruct (fs !! path) as [[c |] |]; try reflexivity.
  cbn [mbind result_bind].
  destruct (radio_manager.missing_keys required_keys c) as [[| k l] | []];
    reflexivity.
Qed.

Lemma missing_keys_atom (c : json F) :
  is_atom c = true ->
  radio_manager.missing_keys required_keys c = Raise TypeError.
Proof. destruct c; try discriminate; reflexivity. Qed.

Lemma missing_keys_never_other (keys : list string) (c : json F) (e : exn) :
  radio_manager.missing_keys keys c = Raise e -> e = TypeError.
Proof.
  induction keys as [| key rest IH]; [discriminate |].
  cbn. destruct (py_in key c) as [b | e1] eqn:E; cbn.
  - destruct (radio_manager.missing_keys rest c); cbn; [discriminate |].
    intros [= <-]. now apply IH.
  - intros [= <-]. destruct c; cbn in E; congruence.
Qed.

Lemma toolkit_load_cases (fs : gmap string (text_file F)) (path : string) :
  radio_basic_toolkit_backup.load_config fs path
  = match radio_manager.load_config fs path with
    | Ok r => r
    | Raise _ => None
    end.
Proof.
  rewrite radio_manager_load_cases.
  unfold radio_basic_toolkit_backup.load_config, read_json.
  destruct (String.eqb path ""); [reflexivity |].
  destruct (fs !! path) as [[c |] |]; try reflexivity.
  cbn [mbind result_bind].
  pose proof (first_missing_missing_keys required_keys c) as H.
  destruct (first_missing required_keys c) as [[k |] | e1],
    (radio_manager.missing_keys required_keys c) as [[| k' l] | e2] eqn:E2;
    cbn; try contradiction; try reflexivity.
  apply missing_keys_never_other in E2. subst. reflexivity.
Qed.

End config_files.

(** X7.  [radio_manager.load_config] returns None for a missing file, for
    a file that is not JSON and for a dict lacking one of the four required
    keys; it returns a dict holding the four keys unchanged, whatever their
    values are.  Only three exception classes are caught: on a document
    that is a number, a boolean or null the TypeError of the membership
    test escapes to the caller. *)
Theorem radio_manager_load_config_cases :
  forall (F : Type) (fs : gmap string (text_file F)) (file_path : string),
    (String.eqb file_path "" = true \/ fs !! file_path = None \/
     fs !! file_path = Some InvalidJson ->
     radio_manager.load_config fs file_path = Ok None) /\
    (forall d : gmap string (json F),
        String.eqb file_path "" = false ->
        fs !! file_path = Some (JsonText (JObj d)) ->
        ((forall k, In k required_keys -> is_Some (d !! k)) ->
         radio_manager.load_config fs file_path = Ok (Some (JObj d))) /\
        ((exists k, In k required_keys /\ d !! k = None) ->
         radio_manager.load_config fs file_path = Ok None)) /\
    (forall c : json F,
        String.eqb file_path "" = false ->
        fs !! file_path = Some (JsonText c) ->
        is_atom c = true ->
        radio_manager.load_config fs file_path = Raise TypeError).
Proof.
  intros F fs file_path. rewrite radio_manager_load_cases. split; [| split].
  - intros [-> | [H | H]]; [reflexivity | |];
      destruct (String.eqb file_path ""); try reflexivity; now rewrite H.
  - intros d -> ->.
    destruct (missing_keys_dict required_keys d) as (l & -> & Hiff). split.
    + intros Hall. apply Hiff in Hall. now subst l.
    + intros (k & Hk & Hnone). destruct l as [| k' l]; [| reflexivity].
      destruct Hiff as [Hiff _]. destruct (Hiff eq_refl k Hk) as [v Hv].
      congruence.
  - intros c -> -> Hc. now rewrite missing_keys_atom.
Qed.

Lemma radio_manager_load_config_cases_witness :
  radio_manager.load_config number_document "radio_config.json"
  = Raise TypeError /\
  radio_manager.load_config number_document "missing.json" = Ok None.
Proof.
  split.
  - destruct (radio_manager_load_config_cases spec_float number_document
                "radio_config.json") as (_ & _ & H).
    apply (H (JInt 42)); reflexivity.
  - destruct (radio_manager_load_config_cases spec_float number_document
                "missing.json") as (H & _).
    apply H. right. left. reflexivity.
Defined.

(** X8.  The fallback [load_config] of radio_basic_toolkit_backup.py
    returns what [radio_manager.load_config] returns, and None wherever
    that one raises: its last handler catches every exception. *)
Theorem fallback_load_config_never_raises :
  forall (F : Type) (fs : gmap string (text_file F)) (file_path : string),
    radio_basic_toolkit_backup.load_config fs file_path
    = match radio_manager.load_config fs file_path with
      | Ok r => r
      | Raise _ => None
      end.
Proof. intros F fs file_path. apply toolkit_load_cases. Qed.



Section collection.
Context {F : Type} {ops : NpFloat F}.

Lemma collect_blocks_length (passes : nat) (g : rng F) :
  length (radio_basic_toolkit_backup.collect_blocks passes g)
  = (100 * passes)%nat.
Proof.
  revert g. induction passes as [| n IH]; intros g; [reflexivity |].
  cbn [radio_basic_toolkit_backup.collect_blocks
       radio_basic_toolkit_backup.collect_block].
  rewrite length_app, IH, length_zip_with, !length_map, !length_seq. lia.
Qed.

End collection.

(** X10.  With [total = int(duration * sample_rate)],
    [simulate_signal_collect] returns [100 * max(0, total // 100)]
    samples: only whole blocks of 100 are produced, so up to 99 of the
    requested samples are left out and a request for fewer than 100 gives
    the empty list.  When the product has no integer value (NaN,
    infinity) the exception of [int()] reaches the caller. *)
Theorem simulate_signal_collect_length :
  forall (F : Type) (ops : NpFloat F) (g : rng F) (duration sample_rate : F),
    (forall total,
        f_to_Z (f_mul duration sample_rate) = Some total ->
        exists rows,
          radio_basic_toolkit_backup.simulate_signal_collect g duration
            sample_rate = Ok rows /\
          Z.of_nat (length rows) = (100 * Z.max 0 (total / 100))%Z /\
          (0 <= total -> 0 <= total - Z.of_nat (length rows) < 100)%Z /\
          (total < 100 -> rows = [])%Z) /\
    (f_to_Z (f_mul duration sample_rate) = None ->
     exists e,
       radio_basic_toolkit_backup.simulate_signal_collect g duration
         sample_rate = Raise e).
Proof.
  intros F ops g duration sample_rate.
  unfold radio_basic_toolkit_backup.simulate_signal_collect, py_int_of_float.
  split; [| intros ->; cbn; eauto].
  intros total ->.
  cbn [mbind result_bind]. eexists. split; [reflexivity |].
  rewrite collect_blocks_length.
  assert (Hlen : Z.of_nat (100 * Z.to_nat (total / 100))
                 = (100 * Z.max 0 (total / 100))%Z) by lia.
  split; [exact Hlen |]. split.
  - intros Hpos. rewrite Hlen.
    pose proof (Z.div_pos total 100 Hpos ltac:(lia)).
    pose proof (Z.mod_pos_bound total 100 ltac:(lia)).
    pose proof (Z.div_mod total 100 ltac:(lia)). lia.
  - intros Hsmall.
    assert (Z.to_nat (total / 100) = 0%nat) as ->.
    { assert (total / 100 <= 0)%Z; [| lia].
      destruct (Z_lt_le_dec total 0).
      - assert (total / 100 < 0)%Z by (apply Z.div_lt_upper_bound; lia). lia.
      - rewrite Z.div_small by lia. lia. }
    reflexivity.
Qed.

Lemma simulate_signal_collect_length_witness :
  exists rows,
    radio_basic_toolkit_backup.simulate_signal_collect (ops:=binary64)
      counting_rng (f64 1) (f64 250) = Ok rows /\
    length rows = 200%nat.
Proof.
  destruct (simulate_signal_collect_length spec_float binary64 counting_rng
              (f64 1) (f64 250)) as [H _].
  destruct (H 250%Z) as (rows & Hrows & Hlen & _).
  - vm_compute. reflexivity.
  - exists rows. split; [exact Hrows |].
    change (100 * Z.max 0 (250 / 100))%Z with 200%Z in Hlen. lia.
Defined.

(** ** File names *)

Lemma string_length_app (s t : string) :
  String.length (s ++ t) = (String.length s + String.length t)%nat.
Proof. induction s as [| a s IH]; [reflexivity | simpl; f_equal; exact IH]. Qed.

Lemma substring_all (t : string) : String.substring 0 (String.length t) t = t.
Proof. induction t as [| a t IH]; [reflexivity | simpl; f_equal; exact IH]. Qed.

Lemma substring_skip (s t : string) :
  String.substring (String.length s) (String.length t) (s ++ t) = t.
Proof. induction s as [| a s IH]; [apply substring_all | exact IH]. Qed.

Lemma str_endswith_app (s t : string) : str_endswith (s ++ t) t = true.
Proof.
  unfold str_endswith. rewrite string_length_app.
  replace (String.length s + String.length t - String.length t)%nat
    with (String.length s) by lia.
  rewrite substring_skip, String.eqb_refl.
  rewrite andb_true_r. apply Nat.leb_le. lia.
Qed.

Lemma npy_name_idempotent (filename : string) :
  signal_processor.npy_name (signal_processor.npy_name filename)
  = signal_processor.npy_name filename.
Proof.
  unfold signal_processor.npy_name.
  destruct (str_endswith filename ".npy") eqn:E.
  - now rewrite E.
  - now rewrite str_endswith_app.
Qed.

Lemma npy_name_fixed (filename : string) :
  signal_processor.npy_name filename = filename <->
  str_endswith filename ".npy" = true.
Proof.
  unfold signal_processor.npy_name.
  destruct (str_endswith filename ".npy") eqn:E.
  - split; reflexivity.
  - split; [| discriminate]. intros H.
    rewrite <- H, str_endswith_app in E. discriminate.
Qed.

(** X11.  [SignalProcessor.save_signal_data] writes the table under the
    file name with the suffix .npy appended when it is missing, as
    [np.save] does, and returns True exactly when that name can be opened
    for writing; otherwise it returns False and writes nothing.  After a
    successful save, loading under the extended name returns the saved
    table.  Loading under the given name returns it only when the name
    already ends in .npy; otherwise the load sees whatever was stored under
    the given name before, and None when nothing was. *)
Theorem iq_array_save_load_round_trip :
  forall (F : Type) (writable : string -> bool)
         (fs : gmap string (signal_processor.file (F:=F)))
         (iq_array : signal_processor.iq_table) (filename : string),
    let saved := signal_processor.save_signal_data writable fs iq_array
                   filename in
    fst saved = writable (signal_processor.npy_name filename) /\
    (writable (signal_processor.npy_name filename) = false ->
     snd saved = fs) /\
    (writable (signal_processor.npy_name filename) = true ->
     signal_processor.load_signal_data (snd saved)
       (signal_processor.npy_name filename) = Some iq_array /\
     (str_endswith filename ".npy" = true ->
      signal_processor.load_signal_data (snd saved) filename
      = Some iq_array)) /\
    (str_endswith filename ".npy" = false ->
     signal_processor.load_signal_data (snd saved) filename
     = signal_processor.load_signal_data fs filename) /\
    (fs !! filename = None ->
     signal_processor.load_signal_data fs filename = None).
Proof.
  intros F writable fs iq_array filename saved.
  unfold saved, signal_processor.save_signal_data.
  destruct (writable (signal_processor.npy_name filename)) eqn:Hw;
    cbn [fst snd].
  - assert (Hwritten : signal_processor.load_signal_data
                         (<[signal_processor.npy_name filename
                            := signal_processor.NpyFile iq_array]> fs)
                         (signal_processor.npy_name filename)
                       = Some iq_array).
    { unfold signal_processor.load_signal_data. now rewrite lookup_insert_eq. }
    split; [reflexivity |]. split; [discriminate |]. split; [| split].
    + intros _. split; [exact Hwritten |].
      intros E. apply npy_name_fixed in E.
      rewrite E in Hwritten |- *. exact Hwritten.
    + intros E. unfold signal_processor.load_signal_data.
      rewrite lookup_insert_ne; [reflexivity |].
      intros H. apply npy_name_fixed in H. congruence.
    + intros H. unfold signal_processor.load_signal_data. now rewrite H.
  - split; [reflexivity |]. split; [reflexivity |]. split; [discriminate |].
    split; [reflexivity |].
    intros H. unfold signal_processor.load_signal_data. now rewrite H.
Qed.

Lemma iq_array_save_load_round_trip_witness :
  signal_processor.load_signal_data
    (snd (signal_processor.save_signal_data flat_directory ∅ test_data
            "iq_capture.npy"))
    "iq_capture.npy" = Some test_data /\
  signal_processor.load_signal_data
    (snd (signal_processor.save_signal_data flat_directory ∅ test_data
            "iq_capture"))
    "iq_capture" = None /\
  signal_processor.save_signal_data flat_directory ∅ test_data
    "nodir/iq_capture.npy" = (false, ∅).
Proof.
  split; [| split].
  - destruct (iq_array_save_load_round_trip spec_float flat_directory ∅
                test_data "iq_capture.npy") as (_ & _ & H & _).
    destruct (H eq_refl) as [_ Hgiven]. apply Hgiven. reflexivity.
  - destruct (iq_array_save_load_round_trip spec_float flat_directory ∅
                test_data "iq_capture") as (_ & _ & _ & Hsame & Hnone).
    rewrite Hsame by reflexivity. apply Hnone. reflexivity.
  - destruct (iq_array_save_load_round_trip spec_float flat_directory ∅
                test_data "nodir/iq_capture.npy") as (Hfst & Hsnd & _).
    cbv zeta in Hfst, Hsnd.
    destruct (signal_processor.save_signal_data flat_directory ∅ test_data
                "nodir/iq_capture.npy") as [b fs'].
    cbn [fst snd] in Hfst, Hsnd. rewrite Hfst, Hsnd; reflexivity.
Defined.

(** X12.  In [SignalProcessor.process_iq_data] the [first_200_samples]
    entry is sliced from the table as passed in, before the annotation row
    is split off: it is the first [min(200, n)] rows, so for a table of at
    most 200 rows it is the whole table, and when the last row is an
    annotation it holds one row more than [original_i]. *)
Theorem first_200_samples_come_from_the_unsplit_table :
  forall (F : Type) (ops : NpFloat F) (iq_array : signal_processor.iq_table),
    iq_array <> [] ->
    exists r,
      signal_processor.process_iq_data iq_array = Ok r /\
      signal_processor.first_200_samples r = take 200 iq_array /\
      length (signal_processor.first_200_samples r)
      = Nat.min 200 (length iq_array) /\
      ((length iq_array <= 200)%nat ->
       signal_processor.first_200_samples r = iq_array) /\
      ((length iq_array <= 200)%nat ->
       signal_processor.last_row_is_annotation iq_array = true ->
       length (signal_processor.first_200_samples r)
       = S (length (signal_processor.original_i r))).
Proof.
  intros F ops iq_array Hne.
  destruct (process_iq_data_returns iq_array Hne)
    as (r & i_max & i_min & Hr & _ & _ & Ho & _ & _ & _ & H200 & _).
  exists r. split; [exact Hr |]. rewrite H200, Ho.
  split; [reflexivity |]. split; [apply length_take |]. split.
  - intros Hle. apply take_ge. exact Hle.
  - intros Hle Hann. rewrite take_ge by exact Hle.
    rewrite length_map, data_rows_length, Hann.
    apply annotation_needs_two_rows in Hann. lia.
Qed.

Lemma first_200_samples_come_from_the_unsplit_table_witness :
  exists r,
    signal_processor.process_iq_data (ops:=binary32) annotated_test_table
    = Ok r /\
    signal_processor.first_200_samples r = annotated_test_table /\
    length (signal_processor.first_200_samples r) = 4%nat /\
    length (signal_processor.original_i r) = 3%nat.
Proof.
  destruct (first_200_samples_come_from_the_unsplit_table spec_float binary32
              annotated_test_table) as (r & Hr & _ & _ & Hall & Hone).
  - discriminate.
  - exists r. split; [exact Hr |].
    assert (Hlen : (length annotated_test_table <= 200)%nat)
      by (vm_compute; lia).
    split; [apply Hall; exact Hlen |].
    specialize (Hone Hlen eq_refl). rewrite (Hall Hlen) in Hone |- *.
    split; [reflexivity |]. cbn in Hone. lia.
Defined.

(** X13.  For a non-empty list of rows, the fallback [process_iq_data]
    applied to the fallback [create_iq_array(rows, sample_rate)] works on
    exactly the given rows: [original_i] and [q_components] are their two
    columns, [i_mean] is the mean of the I column and [filtered_i] is that
    column with the values above the mean replaced by 0.  The sample-rate
    row never enters the statistics. *)
Theorem fallback_pipeline_recovers_the_columns :
  forall (F : Type) (ops : NpFloat F) (rows : list (F * F)) (sample_rate : F),
    rows <> [] ->
    let r := radio_basic_toolkit_backup.process_iq_data
               (radio_basic_toolkit_backup.create_iq_array
                  (Some rows) (Some sample_rate)) in
    radio_basic_toolkit_backup.original_i r = map fst rows /\
    radio_basic_toolkit_backup.q_components r = map snd rows /\
    radio_basic_toolkit_backup.i_mean r = np_mean (map fst rows) /\
    radio_basic_toolkit_backup.filtered_i r
    = np_where_gt (np_mean (map fst rows)) (map fst rows).
Proof.
  intros F ops rows sample_rate Hne r.
  destruct (fallback_rows (radio_basic_toolkit_backup.create_iq_array
                             (Some rows) (Some sample_rate)))
    as (Ho & Hq & Hm & Hf).
  fold r in Ho, Hq, Hm, Hf.
  unfold radio_basic_toolkit_backup.create_iq_array in Ho, Hq, Hm, Hf.
  assert (Hlen : (1 <? length (rows ++ [(sample_rate, f_zero)]))%nat = true).
  { apply Nat.ltb_lt. rewrite length_app. destruct rows; [congruence |].
    cbn. lia. }
  rewrite Hlen, removelast_last in Ho, Hq, Hm, Hf. auto.
Qed.

Lemma fallback_pipeline_recovers_the_columns_witness :
  radio_basic_toolkit_backup.original_i
    (radio_basic_toolkit_backup.process_iq_data (ops:=binary32)
       (radio_basic_toolkit_backup.create_iq_array (ops:=binary32)
          (Some test_data) (Some (f32 2400000))))
  = [f32 1; f32 3; f32 5].
Proof.
  destruct (fallback_pipeline_recovers_the_columns spec_float binary32
              test_data (f32 2400000)) as (Ho & _);
    [discriminate | exact Ho].
Defined.

(** X14.  [_preprocess_signal] returns a buffer of the same length as
    its input, for every input; and the body of its [try] raises exactly
    on the empty buffer. *)
Theorem preprocess_signal_keeps_the_length :
  forall (F : Type) (ops : NpFloat F) (signal : list (complex F)),
    length (signal_processor_backup._preprocess_signal signal) = length signal /\
    (signal = [] <->
     exists e, signal_processor_backup._preprocess_signal_try signal = Raise e).
Proof.
  intros F ops signal. split; [apply preprocess_length |]. split.
  - intros ->. exists ValueError. reflexivity.
  - intros [e He]. eapply preprocess_try_raises. exact He.
Qed.

Lemma preprocess_signal_keeps_the_length_witness :
  exists e,
    signal_processor_backup._preprocess_signal_try (ops:=binary64) [] = Raise e.
Proof.
  destruct (preprocess_signal_keeps_the_length spec_float binary64 [])
    as (_ & H & _).
  apply H. reflexivity.
Defined.

(** X15.  On a one-dimensional sample buffer, [analyze_signal] returns
    the empty dict (None here) when the sample rate equals 0, when the FFT
    raises, and when the FFT bin spacing [n * (1 / sample_rate)] evaluates
    to 0.  Stated for every scalar carrier and every FFT. *)
Theorem analyze_signal_failure_cases :
  forall (F : Type) (ops : NpFloat F)
         (np_fft : list (complex F) -> result (list (complex F)))
         (np_log10 : F -> F)
         (signal_data : signal_processor_backup.SignalData)
         (xs : list (complex F)),
    signal_processor_backup.data signal_data
    = signal_processor_backup.NdComplex1 xs ->
    (f_eqb (signal_processor_backup.sample_rate signal_data) f_zero = true ->
     signal_processor_backup.analyze_signal np_fft np_log10 signal_data = None) /\
    (forall e,
        np_fft xs = Raise e ->
        signal_processor_backup.analyze_signal np_fft np_log10 signal_data
        = None) /\
    (forall ys,
        np_fft xs = Ok ys ->
        f_eqb (f_mul (f_of_nat (length xs))
                 (f_div f_one (signal_processor_backup.sample_rate signal_data)))
              f_zero = true ->
        signal_processor_backup.analyze_signal np_fft np_log10 signal_data
        = None).
Proof.
  intros F ops np_fft np_log10 signal_data xs Hdata.
  unfold signal_processor_backup.analyze_signal. rewrite Hdata.
  repeat split.
  - intros Hz.
    destruct (analyze_try_zero_rate np_fft np_log10 xs _ Hz) as [e ->].
    reflexivity.
  - intros e Hfft.
    unfold signal_processor_backup.analyze_signal_try. now rewrite Hfft.
  - intros ys Hfft Hval.
    unfold signal_processor_backup.analyze_signal_try.
    rewrite Hfft. cbn [mbind result_bind]. unfold py_div at 1.
    destruct (f_eqb (signal_processor_backup.sample_rate signal_data) f_zero);
      [reflexivity |].
    cbn [mbind result_bind]. rewrite np_fftfreq_cases, Hval. reflexivity.
Qed.

Lemma analyze_signal_failure_cases_witness :
  signal_processor_backup.analyze_signal (ops:=real_arith)
    np_fft_exact np_log10_exact zero_rate_record = None.
Proof.
  destruct (analyze_signal_failure_cases R real_arith np_fft_exact
              np_log10_exact zero_rate_record [(1, 0)%R] eq_refl) as (H & _).
  apply H. cbn. destruct (Req_dec_T 0 0); congruence.
Defined.

(** X16.  For a non-empty one-dimensional buffer whose FFT returns as
    many bins as there are samples, with a sample rate and a bin spacing
    that do not equal 0, [analyze_signal] returns a result: the spectrum
    has a first largest bin [k < n], [main_frequency] is the frequency
    [np.fft.fftfreq] gives to bin [k], [spectrum_peak] is the largest
    magnitude of the spectrum, [data_length] is [n], and [power] and
    [amplitude] are the means of the squared magnitudes and of the
    magnitudes.  Stated for every scalar carrier, IEEE included. *)
Theorem analyze_signal_success_conditions :
  forall (F : Type) (ops : NpFloat F)
         (np_fft : list (complex F) -> result (list (complex F)))
         (np_log10 : F -> F)
         (signal_data : signal_processor_backup.SignalData)
         (xs ys : list (complex F)),
    signal_processor_backup.data signal_data
    = signal_processor_backup.NdComplex1 xs ->
    np_fft xs = Ok ys -> length ys = length xs -> xs <> [] ->
    f_eqb (signal_processor_backup.sample_rate signal_data) f_zero = false ->
    f_eqb (f_mul (f_of_nat (length xs))
             (f_div f_one (signal_processor_backup.sample_rate signal_data)))
          f_zero = false ->
    exists r k,
      signal_processor_backup.analyze_signal np_fft np_log10 signal_data
      = Some r /\
      np_argmax (map c_abs ys) = Ok k /\ (k < length xs)%nat /\
      signal_processor_backup.main_frequency r
      = f_mul (f_of_Z (fftfreq_index (Z.of_nat (length xs)) (Z.of_nat k)))
              (f_div f_one
                 (f_mul (f_of_nat (length xs))
                    (f_div f_one
                       (signal_processor_backup.sample_rate signal_data)))) /\
      np_max (map c_abs ys) = Ok (signal_processor_backup.spectrum_peak r) /\
      signal_processor_backup.data_length r = length xs /\
      signal_processor_backup.power r
      = np_mean (map (fun z => f_mul (c_abs z) (c_abs z)) xs) /\
      signal_processor_backup.amplitude r = np_mean (map c_abs xs).
Proof.
  intros F ops np_fft np_log10 signal_data xs ys Hdata Hfft Hlen Hne Hsr Hval.
  destruct (analyze_try_returns np_fft np_log10 xs ys _ Hfft Hlen Hne Hsr Hval)
    as (k & peak & Hk & Hklt & Hpeak & Htry).
  unfold signal_processor_backup.analyze_signal. rewrite Hdata, Htry.
  eexists. exists k. split; [reflexivity |]. cbn. auto 10.
Qed.

Lemma analyze_signal_success_conditions_witness :
  exists r,
    signal_processor_backup.analyze_signal (ops:=real_arith)
      np_fft_exact np_log10_exact unit_tone = Some r /\
    signal_processor_backup.data_length r = 1%nat.
Proof.
  destruct (analyze_signal_success_conditions R real_arith np_fft_exact
              np_log10_exact unit_tone [(1, 0)%R] (dft [(1, 0)%R]))
    as (r & k & Hr & _ & _ & _ & _ & Hn & _).
  - reflexivity.
  - reflexivity.
  - reflexivity.
  - discriminate.
  - cbn. destruct (Req_dec_T 1 0); [lra | reflexivity].
  - cbn. destruct (Req_dec_T _ _) as [E |]; [| reflexivity].
    exfalso. change (IZR (Z.of_nat 1)) with 1%R in E. lra.
  - exists r. split; assumption.
Defined.

Section rescaling.
Local Open Scope R_scope.

Lemma magnitude_scale (c : R) (z : R * R) :
  0 < c -> magnitude (c_scale (ops:=real_arith) c z) = c * magnitude z.
Proof.
  intros Hc. destruct z as [a b]. unfold magnitude, c_scale.
  cbn [fst snd f_mul real_arith].
  replace ((a * c) ^ 2 + (b * c) ^ 2) with ((c * c) * (a ^ 2 + b ^ 2)) by ring.
  rewrite sqrt_mult_alt by nra.
  rewrite sqrt_square by lra. reflexivity.
Qed.

Lemma np_max_scale (c peak : R) (signal : list (R * R)) :
  0 < c ->
  np_max (ops:=real_arith) (map (c_abs (ops:=real_arith)) signal) = Ok peak ->
  np_max (ops:=real_arith)
    (map (c_abs (ops:=real_arith)) (map (c_scale (ops:=real_arith) c) signal))
  = Ok (c * peak).
Proof.
  intros Hc Hpeak.
  assert (Hne : map (c_abs (ops:=real_arith)) (map (c_scale (ops:=real_arith) c) signal) <> []).
  { destruct signal; [discriminate Hpeak | discriminate]. }
  destruct (np_max_nonempty (ops:=real_arith) _ Hne) as [m Hm]. rewrite Hm. f_equal.
  apply np_max_exact in Hm. apply np_max_exact in Hpeak.
  apply (is_maximum_unique _ _ _ Hm).
  destruct Hpeak as [Hin Hle]. split.
  - apply in_map_iff in Hin. destruct Hin as (z & Hz & Hin).
    apply in_map_iff. exists (c_scale (ops:=real_arith) c z). split.
    + rewrite c_abs_exact, magnitude_scale by exact Hc.
      rewrite <- Hz, c_abs_exact. reflexivity.
    + apply in_map. exact Hin.
  - intros x Hx. apply in_map_iff in Hx. destruct Hx as (w & <- & Hw).
    apply in_map_iff in Hw. destruct Hw as (z & <- & Hz).
    rewrite c_abs_exact, magnitude_scale by exact Hc.
    apply Rmult_le_compat_l; [lra |].
    apply Hle. apply in_map_iff. exists z. split; [apply c_abs_exact | exact Hz].
Qed.

Lemma signal_normalized_scale (c peak : R) (signal : list (R * R)) :
  c <> 0 -> peak <> 0 ->
  signal_processor_backup.signal_normalized (ops:=real_arith)
    (map (c_scale (ops:=real_arith) c) signal) (c * peak)
  = signal_processor_backup.signal_normalized (ops:=real_arith) signal peak.
Proof.
  intros Hc Hp. unfold signal_processor_backup.signal_normalized.
  rewrite map_map. apply map_ext. intros [a b].
  unfold c_div_real, c_scale. cbn [fst snd f_mul f_div real_arith].
  f_equal; field; split; assumption.
Qed.

End rescaling.

Local Open Scope R_scope.

(** X17.  Over exact arithmetic, [_preprocess_signal] does not depend on
    the scale of its input: multiplying every sample of a buffer whose
    largest magnitude is not 0 by a positive real [c] leaves the result
    unchanged. *)
Theorem preprocessing_discards_the_input_scale :
  forall (signal : list (R * R)) (c peak : R),
    0 < c ->
    np_max (ops:=real_arith) (map (c_abs (ops:=real_arith)) signal) = Ok peak ->
    peak <> 0 ->
    signal_processor_backup._preprocess_signal (ops:=real_arith)
      (map (c_scale (ops:=real_arith) c) signal)
    = signal_processor_backup._preprocess_signal (ops:=real_arith) signal.
Proof.
  intros signal c peak Hc Hpeak Hp.
  unfold signal_processor_backup._preprocess_signal,
    signal_processor_backup._preprocess_signal_try.
  rewrite (np_max_scale c peak signal Hc Hpeak), Hpeak.
  cbn [mbind result_bind].
  rewrite signal_normalized_scale by lra.
  destruct (moving_average_filter_returns
              (ops:=real_arith)
              (signal_processor_backup.signal_normalized (ops:=real_arith)
                 signal peak)) as (r & -> & _).
  { destruct signal; [discriminate Hpeak | discriminate]. }
  reflexivity.
Qed.

Lemma preprocessing_discards_the_input_scale_witness :
  signal_processor_backup._preprocess_signal (ops:=real_arith)
    (map (c_scale (ops:=real_arith) 2) pythagorean_buffer)
  = signal_processor_backup._preprocess_signal (ops:=real_arith)
      pythagorean_buffer.
Proof.
  assert (H5 : sqrt (3 * 3 + 4 * 4) = 5).
  { replace (3 * 3 + 4 * 4) with (5 * 5) by lra. apply sqrt_square. lra. }
  assert (H1 : sqrt (0 * 0 + 1 * 1) = 1).
  { replace (0 * 0 + 1 * 1) with (1 * 1) by lra. apply sqrt_square. lra. }
  apply (preprocessing_discards_the_input_scale pythagorean_buffer 2
           (sqrt (3 * 3 + 4 * 4))).
  - lra.
  - unfold pythagorean_buffer, np_max, np_maximum, c_abs.
    cbn [map fold_left fst snd f_sqrt f_add f_mul f_leb f_eqb real_arith].
    rewrite H5, H1.
    destruct (Rle_dec 1 5) as [_ | Hn]; [reflexivity | lra].
  - rewrite H5. lra.
Defined.

Local Close Scope R_scope.
